(** * The data-access facade of the plant journal (src/lib/db/mongo/index.js)

    A shallow embedding of the [MongoDb] class: the three collections
    (user, plant, note), the four generic helpers the class imports
    (./read, ./create, ./update, ./delete) and the entity operations the
    class composes from them, with the cascading [deletePlant] first.

    Callbacks [(err, result)] are modelled in direct style: an operation
    takes the world before the call and returns what the callback received
    together with the world after it. *)

From Stdlib Require Import List String Bool Arith Lia HexString.
Import ListNotations.
Open Scope string_scope.
Open Scope list_scope.
Open Scope nat_scope.
Set Implicit Arguments.

(** ** Identifiers

    An identifier lives in one of two forms: the external string, and the
    store's native [ObjectID] (index.js:21-38).  [hex] is the text the
    native identifier prints as.  A field meant for an identifier may also
    hold an object that is neither: [Other], which prints the way an
    object without a [toString] of its own does. *)

Inductive ident : Type :=
| Str (s : string)
| ObjectID (hex : string)
| Other.

Definition text (i : ident) : string :=
  match i with
  | Str s => s
  | ObjectID h => h
  | Other => "[object Object]"
  end.

(** [new ObjectID(x)].  index.js:7-8 import the default export of
    'mongodb' twice, as [mongodb] and as [ObjectID]: the name is bound to
    the module (the value whose [MongoClient.connect] line 60 calls), not
    to the driver's identifier class.  What [new] builds from it is an
    object that holds no identifier: neither a string nor a native
    identifier, whatever [x] is. *)
Definition newObjectID (x : ident) : ident := Other.

(** [x.toString()] *)
Definition toString (x : ident) : ident := Str (text x).

Definition is_native (i : ident) : bool :=
  match i with
  | ObjectID _ => true
  | Str _ | Other => false
  end.

Definition is_external (i : ident) : bool :=
  match i with
  | Str _ => true
  | ObjectID _ | Other => false
  end.

(** Equality as the store decides it when it matches a query value against
    a stored field: by form and by value.  A string does not match the
    native identifier that prints as that string, which is why queries are
    to be converted before they reach the store (index.js:21-30).  An
    object that holds no identifier matches neither a string nor a
    native identifier. *)
Definition ident_eqb (a b : ident) : bool :=
  match a, b with
  | Str x, Str y => String.eqb x y
  | ObjectID x, ObjectID y => String.eqb x y
  | Other, Other => true
  | _, _ => false
  end.

(** JavaScript's [a === b]: strings compare by value, objects by reference.
    A native identifier or another object read from the store is a fresh
    object, so it is identical to no value the caller holds. *)
Definition strict_eq (a b : ident) : bool :=
  match a, b with
  | Str x, Str y => String.eqb x y
  | _, _ => false
  end.

(** A field or query value that may be [undefined]. *)
Abbreviation jsval := (option ident).

(** Truthiness of an identifier-valued expression, as [if(plant._id)]. *)
Definition truthy (v : jsval) : bool :=
  match v with
  | None => false
  | Some (Str "") => false
  | Some _ => true
  end.

(** Truthiness of a string-valued expression, as [_.get(o, 'facebook.id')]. *)
Definition truthy_string (v : option string) : bool :=
  match v with
  | None => false
  | Some "" => false
  | Some _ => true
  end.

(** A stored field against a query value; an [undefined] on either side
    matches nothing. *)
Definition field_is (f v : jsval) : bool :=
  match f, v with
  | Some a, Some b => ident_eqb a b
  | _, _ => false
  end.

(** ** Documents *)

Module User.
(** [facebook_id] is the path [facebook.id] of the OAuth profile, [None]
    when [facebook] or its [id] is missing; [profile] is the rest. *)
Record t : Type := mk {
  _id : jsval;
  facebook_id : option string;
  profile : list (string * string)
}.
End User.

Module Note.
Record t : Type := mk {
  _id : jsval;
  userId : jsval;
  plantIds : list ident;
  body : list (string * string)
}.
End Note.

Module Plant.
(** [notes] is the in-memory property [getPlantById] attaches; an element
    of a JavaScript array may be [undefined]. *)
Record t : Type := mk {
  _id : jsval;
  userId : jsval;
  attrs : list (string * string);
  notes : option (list (option Note.t))
}.
End Plant.

(** ** Queries *)

Inductive cond : Type :=
| by_id (v : jsval)                  (* {_id: v} *)
| by_id_in (vs : list jsval)         (* {_id: {$in: vs}} *)
| by_userId (v : jsval)              (* {userId: v} *)
| by_plantIds (v : jsval)            (* {plantIds: v}: the array holds v *)
| by_facebook_id (s : option string). (* {'facebook.id': s} *)

(** A query object is the conjunction of its fields. *)
Definition query := list cond.

Definition defined (vs : list jsval) : list ident :=
  flat_map (fun v => match v with Some i => [i] | None => [] end) vs.

Definition cond_idents (c : cond) : list ident :=
  match c with
  | by_id v | by_userId v | by_plantIds v => defined [v]
  | by_id_in vs => defined vs
  | by_facebook_id _ => []
  end.

Definition query_idents (q : query) : list ident := flat_map cond_idents q.

(** ** The store *)

Record store : Type := mk_store {
  users : list User.t;
  plants : list Plant.t;
  notes : list Note.t;
  next_id : nat            (* source of the identifiers the store generates *)
}.

Inductive error : Type :=
| Error (message : string)        (* new Error(message) *)
| Message (message : string)      (* a bare string handed to the callback *)
| StoreError (what : string).     (* a failure the store reports *)

(** One helper call as the store sees it, with the identifiers it carries. *)
Inductive call : Type :=
| call_read (coll : string) (q : query)
| call_createOne (coll : string) (ids : list ident)
| call_update (coll : string) (ids : list ident)
| call_remove (coll : string) (q : query).

Definition call_idents (c : call) : list ident :=
  match c with
  | call_read _ q | call_remove _ q => query_idents q
  | call_createOne _ ids | call_update _ ids => ids
  end.

(** The world an operation runs in: the store, the failures the store is
    going to report (one entry per helper call, [None] for a call that
    goes through, nothing left meaning no more failures), and the calls
    issued so far. *)
Record world : Type := mk_world {
  db : store;
  plan : list (option error);
  trace : list call
}.

(** What a caller's callback receives, or the exception that escaped. *)
Inductive outcome (A : Type) : Type :=
| cb (err : option error) (result : option A)
| throws (what : string).
Arguments cb {A} err result.
Arguments throws {A} what.

(** The collections behind the logical names 'user', 'plant' and 'note'. *)
Class Document (D : Type) : Type := {
  collection : string;
  get_id : D -> jsval;
  set_id : D -> jsval -> D;
  holds : cond -> D -> bool;
  idents : D -> list ident;
  docs : store -> list D;
  set_docs : store -> list D -> store
}.

#[export] Instance user_document : Document User.t := {
  collection := "user";
  get_id := User._id;
  set_id d v := User.mk v (User.facebook_id d) (User.profile d);
  holds c d :=
    match c with
    | by_id v => field_is (User._id d) v
    | by_id_in vs => existsb (field_is (User._id d)) vs
    | by_facebook_id s =>
        match User.facebook_id d, s with
        | Some a, Some b => String.eqb a b
        | _, _ => false
        end
    | by_userId _ | by_plantIds _ => false
    end;
  idents d := defined [User._id d];
  docs := users;
  set_docs s l := mk_store l (plants s) (notes s) (next_id s)
}.

#[export] Instance plant_document : Document Plant.t := {
  collection := "plant";
  get_id := Plant._id;
  set_id d v := Plant.mk v (Plant.userId d) (Plant.attrs d) (Plant.notes d);
  holds c d :=
    match c with
    | by_id v => field_is (Plant._id d) v
    | by_id_in vs => existsb (field_is (Plant._id d)) vs
    | by_userId v => field_is (Plant.userId d) v
    | by_plantIds _ | by_facebook_id _ => false
    end;
  idents d := defined [Plant._id d; Plant.userId d];
  docs := plants;
  set_docs s l := mk_store (users s) l (notes s) (next_id s)
}.

#[export] Instance note_document : Document Note.t := {
  collection := "note";
  get_id := Note._id;
  set_id d v := Note.mk v (Note.userId d) (Note.plantIds d) (Note.body d);
  holds c d :=
    match c with
    | by_id v => field_is (Note._id d) v
    | by_id_in vs => existsb (field_is (Note._id d)) vs
    | by_userId v => field_is (Note.userId d) v
    | by_plantIds v => existsb (fun i => field_is (Some i) v) (Note.plantIds d)
    | by_facebook_id _ => false
    end;
  idents d := (defined [Note._id d; Note.userId d] ++ Note.plantIds d)%list;
  docs := notes;
  set_docs s l := mk_store (users s) (plants s) l (next_id s)
}.

Definition matches {D} `{Document D} (q : query) (d : D) : bool :=
  forallb (fun c => holds c d) q.

(** ** Helper calls

    A helper call reaches the store once: it is logged, and it takes the
    next entry of the plan.  A call the store fails leaves the store as it
    was. *)

Definition task (A : Type) : Type := world -> (error + A) * world.

Definition issue (c : call) (w : world) : option error * world :=
  (hd None (plan w), mk_world (db w) (tl (plan w)) (trace w ++ [c])).

Definition with_db (w : world) (s : store) : world :=
  mk_world s (plan w) (trace w).

Definition bump (s : store) : store :=
  mk_store (users s) (plants s) (notes s) (S (next_id s)).

(** A task of async.waterfall: it calls [done(err, ...)], an error with
    whatever is passed along with it ([R], or nothing), or
    [done(null, a)]. *)
Definition step (R A : Type) : Type := world -> (error * option R + A) * world.

(** The next task runs on the value of the one before; the first error
    ends the chain, and goes to the final callback with what was passed
    along with it (async.waterfall). *)
Definition andThen {R A B} (t : step R A) (k : A -> step R B) : step R B :=
  fun w =>
    match t w with
    | (inl e, w1) => (inl e, w1)
    | (inr a, w1) => k a w1
    end.

Definition done {R A} (a : A) : step R A := fun w => (inr a, w).

(** A helper called with a callback that passes on the error alone:
    [(err) => done(err)], or [done] itself with the helper handing over
    nothing but the error. *)
Definition bare {R A} (t : task A) : step R A :=
  fun w =>
    match t w with
    | (inl e, w1) => (inl (e, None), w1)
    | (inr a, w1) => (inr a, w1)
    end.

(** A helper called with a callback that passes a value of its own
    on, whatever the outcome: [(err, result) => done(err, value)].  With
    an error the value goes to the final callback as [r]. *)
Definition passing {R A B} (r : R) (value : B) (t : task A) : step R B :=
  fun w =>
    match t w with
    | (inl e, w1) => (inl (e, Some r), w1)
    | (inr _, w1) => (inr value, w1)
    end.

Notation "x <- t ;; k" := (andThen t (fun x => k))
  (at level 61, t at next level, right associativity).

(** A helper's [(err, result)] handed to the caller's callback as it is. *)
Definition handed {A} (r : error + A) : outcome A :=
  match r with
  | inl e => cb (Some e) None
  | inr a => cb None (Some a)
  end.

Section Helpers.

(** What ./read hands over when no document matches: no value at all
    ([true]), which is what its callers test for (index.js:112-118,
    171-191, 214), or the empty array ([false]). *)
Variable empty_is_absent : bool.

Context {D : Type} `{Document D}.

(** Modelled from the spec: the generic read helper ./read, which is not
    among the sources.  It finds the documents of a collection that match
    the query, in stored order (§4.3); an empty result is not an error.
    The records are handed over as stored: their identifiers are
    converted by the facade (index.js:21-30, 176-185). *)
Definition read (q : query) : task (option (list D)) :=
  fun w =>
    let (failure, w1) := issue (call_read collection q) w in
    match failure with
    | Some e => (inl e, w1)
    | None =>
        match filter (matches q) (docs (db w1)) with
        | [] => (inr (if empty_is_absent then None else Some []), w1)
        | found => (inr (Some found), w1)
        end
    end.

(** Modelled from the spec: part of ./create, the document as the store
    keeps it, with the identifier it came with or else with one the store
    generates (§4.3, §6). *)
Definition as_stored (s : store) (d : D) : D :=
  match get_id d with
  | Some _ => d
  | None => set_id d (Some (ObjectID (HexString.of_nat (next_id s))))
  end.

(** Modelled from the spec: the generic insert helper ./create, which is
    not among the sources.  It inserts one document, the store giving it
    an identifier when it has none, and returns it with the identifier in
    external string form (§4.3). *)
Definition createOne (d : D) : task D :=
  fun w =>
    let (failure, w1) := issue (call_createOne collection (idents d)) w in
    match failure with
    | Some e => (inl e, w1)
    | None =>
        let s := db w1 in
        let stored := as_stored s d in
        (inr (set_id stored (option_map toString (get_id stored))),
         with_db w1 (bump (set_docs s (docs s ++ [stored]))))
    end.

(** Modelled from the spec: part of ./update, which finds the stored
    document by the identifier of the one passed and puts the latter in
    its place (§4.3). *)
Definition same_id (a b : D) : bool := field_is (get_id a) (get_id b).

Definition replacement (batch : list D) (d : D) : D :=
  match find (same_id d) batch with
  | Some b => b
  | None => d
  end.

(** Modelled from the spec: the generic update helper ./update, which is
    not among the sources.  It replaces existing documents by identifier,
    one document or a batch (§4.3), and reports how many it replaced. *)
Definition update (batch : list D) : task nat :=
  fun w =>
    let (failure, w1) := issue (call_update collection (flat_map idents batch)) w in
    match failure with
    | Some e => (inl e, w1)
    | None =>
        let s := db w1 in
        (inr (List.length (filter (fun d => existsb (same_id d) batch) (docs s))),
         with_db w1 (set_docs s (map (replacement batch) (docs s))))
    end.

(** Modelled from the spec: the generic delete helper ./delete, which is
    not among the sources.  It deletes every document matching the query
    and reports the count removed; none matching is not an error (§4.3). *)
Definition remove (q : query) : task nat :=
  fun w =>
    let (failure, w1) := issue (call_remove collection q) w in
    match failure with
    | Some e => (inl e, w1)
    | None =>
        let s := db w1 in
        (inr (List.length (filter (matches q) (docs s))),
         with_db w1 (set_docs s (filter (fun d => negb (matches q d)) (docs s))))
    end.

(** [convertIdToString] at an object (index.js:78-83) *)
Definition idToString (obj : D) : D :=
  if truthy (get_id obj)
  then set_id obj (option_map toString (get_id obj))
  else obj.

(** [convertIdToString]: [undefined] is returned as it is. *)
Definition convertIdToString (obj : option D) : option D :=
  option_map idToString obj.

End Helpers.

Arguments read empty_is_absent D {_} q w.
Arguments createOne D {_} d w.
Arguments update D {_} batch w.
Arguments remove D {_} q w.

(** [x || []] at an array-or-nothing value *)
Definition or_empty {A} (x : option (list A)) : list A :=
  match x with
  | Some l => l
  | None => []
  end.

(** ** The stages of the cascading delete (index.js:263-323)

    The four functions [deletePlant] hands to async.waterfall; they close
    over the [_id] and [userId] the caller passed. *)

Module Cascade.

Record splitNotes : Type := mk {
  singlePlantNotes : list jsval;
  multiplePlantNotes : list Note.t
}.

(** The reducer of index.js:272-279. *)
Definition partition (acc : splitNotes) (note : Note.t) : splitNotes :=
  if List.length (Note.plantIds note) =? 1
  then mk (singlePlantNotes acc ++ [Note._id note]) (multiplePlantNotes acc)
  else mk (singlePlantNotes acc) (multiplePlantNotes acc ++ [note]).

(** [{...note, plantIds: note.plantIds.filter(ids => ids !== _id)}] *)
Definition without (_id : string) (note : Note.t) : Note.t :=
  Note.mk (Note._id note) (Note.userId note)
    (filter (fun ids => negb (strict_eq ids (Str _id))) (Note.plantIds note))
    (Note.body note).

(** What the final callback of [deletePlant] may get as [deleteResult]:
    the result of the plant delete, a count, or, handed along with the
    error of a failed note delete, the notes still to update
    (index.js:297). *)
Inductive deleteResult : Type :=
| removed (count : nat)
| pending (multiplePlantNotes : list Note.t).

Definition stage (A : Type) : Type := step deleteResult A.

Section Stages.

Variable empty_is_absent : bool.
Variables _id userId : string.

Definition getNotes : stage splitNotes :=
  notesForPlant <- bare (read empty_is_absent Note.t
                           [by_plantIds (Some (Str _id)); by_userId (Some (Str userId))]) ;;
  done (fold_left partition (or_empty notesForPlant) (mk [] [])).

Definition deleteNotes (split : splitNotes) : stage (list Note.t) :=
  if 0 <? List.length (singlePlantNotes split)
  then
    passing (pending (multiplePlantNotes split)) (multiplePlantNotes split)
      (remove Note.t [by_id_in (singlePlantNotes split)])
  else done (multiplePlantNotes split).

Definition updateNotes (multiplePlantNotes : list Note.t) : stage unit :=
  if 0 <? List.length multiplePlantNotes
  then
    _ <- bare (update Note.t (map (without _id) multiplePlantNotes)) ;;
    done tt
  else done tt.

Definition deletePlant : stage nat :=
  bare (remove Plant.t [by_id (Some (Str _id)); by_userId (Some (Str userId))]).

End Stages.

End Cascade.

(** ** The facade (class MongoDb)

    The connection [GetDb] hands over is the store of the world; an
    operation is a function from the world before it to its outcome and
    the world after it. *)

Definition operation (A : Type) : Type := world -> outcome A * world.

Section Facade.

Variable empty_is_absent : bool.

(** index.js:96-125 *)
Definition findOrCreateFacebookUser (userDetails : User.t) : operation User.t :=
  fun w =>
    if negb (truthy_string (User.facebook_id userDetails))
    then (cb (Some (Error "No facebook.id:")) None, w)
    else
      let query := [by_facebook_id (User.facebook_id userDetails)] in
      match read empty_is_absent User.t query w with
      | (inl readError, w1) => (cb (Some readError) None, w1)
      | (inr (Some user), w1) =>
          (cb None (convertIdToString (nth_error user 0)), w1)
      | (inr None, w1) =>
          match createOne User.t userDetails w1 with
          | (inl createOneError, w2) => (cb (Some createOneError) None, w2)
          | (inr createdUser, w2) =>
              (cb None (convertIdToString (Some createdUser)), w2)
          end
      end.

(** index.js:135-146 *)
Definition createPlant (plant : Plant.t) : operation Plant.t :=
  fun w =>
    let plant1 :=
      if truthy (Plant._id plant)
      then Plant.mk (option_map newObjectID (Plant._id plant)) (Plant.userId plant)
             (Plant.attrs plant) (Plant.notes plant)
      else plant in
    if negb (truthy (Plant.userId plant1))
    then (cb (Some (Message
            "userId must be specified as part of plant when creating a plant"))
            None, w)
    else
      let plant2 :=
        Plant.mk (Plant._id plant1) (option_map newObjectID (Plant.userId plant1))
          (Plant.attrs plant1) (Plant.notes plant1) in
      let (r, w1) := createOne Plant.t plant2 w in
      (handed r, w1).

(** index.js:159-195.  The callback of [map] at lines 183-186 assigns to
    the note and returns nothing, so every element of what is stored in
    [plant.notes] is [undefined]; [note._id.toString()] throws on a note
    without [_id]. *)
Definition getPlantById (plantId : string) : operation Plant.t :=
  fun w =>
    let query := [by_id (Some (newObjectID (Str plantId)))] in
    match read empty_is_absent Plant.t query w with
    | (inl readError, w1) => (cb (Some readError) None, w1)
    | (inr (Some plant), w1) =>
        match plant with
        | [] => (throws "TypeError: Cannot read property '_id' of undefined", w1)
        | plant0 :: _ =>
            match read empty_is_absent Note.t [by_plantIds (Plant._id plant0)] w1 with
            | (inl noteReadError, w2) => (cb (Some noteReadError) None, w2)
            | (inr notes, w2) =>
                let plant' := idToString plant0 in
                if forallb (fun note => match Note._id note with
                                        | Some _ => true
                                        | None => false
                                        end) (or_empty notes)
                then (cb None
                        (Some (Plant.mk (Plant._id plant') (Plant.userId plant')
                                 (Plant.attrs plant')
                                 (Some (map (fun _ => None) (or_empty notes))))),
                      w2)
                else (throws "TypeError: Cannot read property 'toString' of undefined", w2)
            end
        end
    | (inr None, w1) => (cb None None, w1)
    end.

(** index.js:203-230 *)
Definition getPlantsByUserId (userId : string) : operation (list Plant.t) :=
  fun w =>
    let userId := newObjectID (Str userId) in
    match read empty_is_absent User.t [by_id (Some userId)] w with
    | (inl readUserError, w1) => (cb (Some readUserError) None, w1)
    | (inr user, w1) =>
        if match user with
           | Some u => List.length u =? 1
           | None => false
           end
        then
          match read empty_is_absent Plant.t [by_userId (Some userId)] w1 with
          | (inl readError, w2) => (cb (Some readError) None, w2)
          | (inr plants, w2) => (cb None (Some (map idToString (or_empty plants))), w2)
          end
        else (cb None None, w1)
    end.

(** index.js:254-331 *)
Definition deletePlant (_id userId : string) : operation Cascade.deleteResult :=
  fun w =>
    match (splitNotes <- Cascade.getNotes empty_is_absent _id userId ;;
           multiplePlantNotes <- Cascade.deleteNotes splitNotes ;;
           _ <- Cascade.updateNotes _id multiplePlantNotes ;;
           Cascade.deletePlant _id userId) w with
    | (inl (waterfallError, deleteResult), w1) =>
        (cb (Some waterfallError) deleteResult, w1)
    | (inr deleteResult, w1) =>
        (cb None (Some (Cascade.removed deleteResult)), w1)
    end.

(** index.js:334-338 *)
Definition deleteAllPlantsByUserId (userId : ident) : operation nat :=
  fun w =>
    let (r, w1) := remove Plant.t [by_userId (Some userId)] w in
    (handed r, w1).

(** index.js:346-356 *)
Definition createNote (note : Note.t) : operation Note.t :=
  fun w =>
    let note1 :=
      if truthy (Note._id note)
      then Note.mk (option_map newObjectID (Note._id note)) (Note.userId note)
             (Note.plantIds note) (Note.body note)
      else note in
    if negb (truthy (Note.userId note1))
    then (cb (Some (Message
            "userId must be specified as part of note when creating a note"))
            None, w)
    else
      let (r, w1) := createOne Note.t note1 w in
      (handed r, w1).

(** index.js:360-364 *)
Definition getNoteById (_id : ident) : operation (list Note.t) :=
  fun w =>
    match read empty_is_absent Note.t [by_id (Some _id)] w with
    | (inl e, w1) => (cb (Some e) None, w1)
    | (inr found, w1) => (cb None found, w1)
    end.

(** index.js:368-372 *)
Definition updateNote (note : Note.t) : operation nat :=
  fun w =>
    let (r, w1) := update Note.t [note] w in
    (handed r, w1).

(** index.js:376-380 *)
Definition deleteNote (_id userId : ident) : operation nat :=
  fun w =>
    let (r, w1) := remove Note.t [by_id (Some _id); by_userId (Some userId)] w in
    (handed r, w1).

End Facade.

(** ** Worlds in which the store fails no call *)

Definition calm (w : world) : Prop := Forall (fun f => f = None) (plan w).

(** The documents of a collection a query selects. *)
Definition selected {D} `{Document D} (q : query) (s : store) : list D :=
  filter (matches q) (docs s).

(** What a read that goes through hands over. *)
Definition found (empty_is_absent : bool) {D} `{Document D}
    (q : query) (s : store) : option (list D) :=
  match selected q s with
  | [] => if empty_is_absent then None else Some []
  | l => Some l
  end.

(** ** Failures in the cascading delete *)

(** [aborts w e r wk w']: in the run of [deletePlant] from [w] a stage
    fails with [e], passing [r] along with it; [wk] is the world the
    stages completed before it left, [w'] the world the failing stage
    leaves.  Only the note delete passes something along: the notes still
    to update (index.js:297). *)
Inductive aborts (empty_is_absent : bool) (_id userId : string)
    (w : world) (e : error)
  : option Cascade.deleteResult -> world -> world -> Prop :=
| aborts_getNotes w' :
    Cascade.getNotes empty_is_absent _id userId w = (inl (e, None), w') ->
    aborts empty_is_absent _id userId w e None w w'
| aborts_deleteNotes split w1 w' :
    Cascade.getNotes empty_is_absent _id userId w = (inr split, w1) ->
    Cascade.deleteNotes split w1
    = (inl (e, Some (Cascade.pending (Cascade.multiplePlantNotes split))), w') ->
    aborts empty_is_absent _id userId w e
      (Some (Cascade.pending (Cascade.multiplePlantNotes split))) w1 w'
| aborts_updateNotes split w1 multiple w2 w' :
    Cascade.getNotes empty_is_absent _id userId w = (inr split, w1) ->
    Cascade.deleteNotes split w1 = (inr multiple, w2) ->
    Cascade.updateNotes _id multiple w2 = (inl (e, None), w') ->
    aborts empty_is_absent _id userId w e None w2 w'
| aborts_deletePlant split w1 multiple w2 w3 w' :
    Cascade.getNotes empty_is_absent _id userId w = (inr split, w1) ->
    Cascade.deleteNotes split w1 = (inr multiple, w2) ->
    Cascade.updateNotes _id multiple w2 = (inr tt, w3) ->
    Cascade.deletePlant _id userId w3 = (inl (e, None), w') ->
    aborts empty_is_absent _id userId w e None w3 w'.

(** A stage that fails has issued one call, the one the store failed,
    and has not touched the store. *)
Definition one_failed_call (w w' : world) : Prop :=
  db w' = db w /\ exists c, trace w' = trace w ++ [c].

(** A plant whose [userId] is not a string: every plant [createPlant]
    stores is one (index.js:143 stores an object). *)
Definition stringless_owner (p : Plant.t) : Prop :=
  forall s, Plant.userId p <> Some (Str s).

(** ** A journal *)

Module Scenario.

Definition p1 : string := "a00000000000000000000001".
Definition p2 : string := "a00000000000000000000002".
Definition u1 : string := "c00000000000000000000001".

Definition empty : world := mk_world (mk_store [] [] [] 0) [] [].

(** What a caller passes: documents with string identifiers. *)
Definition P1 : Plant.t :=
  Plant.mk (Some (Str p1)) (Some (Str u1)) [("title", "Fern")] None.
Definition A : Note.t :=
  Note.mk (Some (Str "b00000000000000000000001")) (Some (Str u1))
    [Str p1] [("note", "watered")].
Definition B : Note.t :=
  Note.mk (Some (Str "b00000000000000000000002")) (Some (Str u1))
    [Str p1; Str p2] [("note", "repotted")].

(** A note passed without [_id], listing the plant twice. *)
Definition Twice : Note.t :=
  Note.mk None (Some (Str u1)) [Str p1; Str p1] [("note", "pruned")].

(** The plant P1 as the store is documented to hold it (index.js:31-37):
    [_id] and [userId] native. *)
Definition stored_P1 : Plant.t :=
  Plant.mk (Some (ObjectID p1)) (Some (ObjectID u1)) [("title", "Fern")] None.

(** A store seeded with the plant alone. *)
Definition planted : world := mk_world (mk_store [] [stored_P1] [] 1) [] [].

(** A store seeded with the plant, the note A on it alone and the note B
    on it and on P2.  The notes are held the way [createNote] leaves a
    note passed without [_id]: [_id] the store's own, [userId] and
    [plantIds] the caller's strings. *)
Definition journal : world :=
  mk_world
    (mk_store []
       [stored_P1]
       [Note.mk (Some (ObjectID "b00000000000000000000001")) (Some (Str u1))
          [Str p1] [("note", "watered")];
        Note.mk (Some (ObjectID "b00000000000000000000002")) (Some (Str u1))
          [Str p1; Str p2] [("note", "repotted")]]
       3)
    [] [].

(** The seeded plant, then [createNote(Twice)]. *)
Definition doubled : world := snd (createNote Twice planted).

(** A store in the documented form (index.js:31-37): every identifier
    field native. *)
Definition shelf : world :=
  mk_world
    (mk_store []
       [Plant.mk (Some (ObjectID p1)) (Some (ObjectID u1)) [("title", "Fern")] None]
       [Note.mk (Some (ObjectID "b00000000000000000000001")) (Some (ObjectID u1))
          [ObjectID p1] [("note", "watered")]]
       2)
    [] [].

(** A first sign-in; then a store seeded with that user and a plant of
    theirs, [userId] native. *)
Definition profile : User.t :=
  User.mk None (Some "10150000000000001") [("name", "Ada")].
Definition registered : world :=
  snd (findOrCreateFacebookUser true profile empty).
Definition garden : world :=
  mk_world
    (mk_store (users (db registered))
       [Plant.mk (Some (ObjectID p1)) (Some (ObjectID "0x0")) [("title", "Fern")] None]
       [] 2)
    [] [].

(** The journal when the store is going to fail the fourth call. *)
Definition failing : world :=
  mk_world (db journal) [None; None; None; Some (StoreError "connection lost")] [].

End Scenario.

(** ** The notes the cascade reaches *)

(** A stored note the query of [getNotes] selects. *)
Definition reached (_id userId : string) (note : Note.t) : bool :=
  matches [by_plantIds (Some (Str _id)); by_userId (Some (Str userId))] note.

(** The test of the partition (index.js:273). *)
Definition single (note : Note.t) : bool :=
  List.length (Note.plantIds note) =? 1.

(** A note collection as the store keeps one: every note has an [_id],
    and no two notes share it. *)
Definition keyed (l : list Note.t) : Prop :=
  NoDup (map Note._id l) /\ Forall (fun n => Note._id n <> None) l.

(** ** The rest of the class *)

(** [new ObjectID(v)] at a value that may be [undefined]. *)
Definition newObjectID_or (v : jsval) : ident :=
  match v with
  | Some x => newObjectID x
  | None => Other
  end.

(** index.js:234-240 *)
Definition updatePlant (plant : Plant.t) : operation nat :=
  fun w =>
    let plant1 :=
      Plant.mk (Some (newObjectID_or (Plant._id plant))) (Plant.userId plant)
        (Plant.attrs plant) (Plant.notes plant) in
    let plant2 :=
      Plant.mk (Plant._id plant1) (Some (newObjectID_or (Plant.userId plant1)))
        (Plant.attrs plant1) (Plant.notes plant1) in
    let (r, w1) := update Plant.t [plant2] w in
    (handed r, w1).

(** The connection [GetDb] keeps in [this.db] (index.js:56-71). *)
Module Client.

Definition connection : Type := nat.

(** [db] is [this.db]; [connects] counts the calls of
    [MongoClient.connect] made so far. *)
Record t : Type := mk {
  db : option connection;
  connects : nat
}.

(** A client as the constructor finds it. *)
Definition fresh : t := mk None 0.

(** [GetDb(cb)]: what [cb] receives, and the client afterwards.
    [connect k] is what the driver answers to the [k]-th call of
    [MongoClient.connect]. *)
Definition GetDb (connect : nat -> error + connection) (this : t)
  : (error + connection) * t :=
  match db this with
  | Some c => (inr c, this)
  | None =>
      match connect (connects this) with
      | inl err => (inl err, mk None (S (connects this)))
      | inr c => (inr c, mk (Some c) (S (connects this)))
      end
  end.

(** [n] calls of [GetDb] one after the other; the answers, first call
    first. *)
Fixpoint GetDb_times (connect : nat -> error + connection) (n : nat) (this : t)
  : list (error + connection) * t :=
  match n with
  | 0 => ([], this)
  | S k =>
      let (r, this1) := GetDb connect this in
      let (rs, this2) := GetDb_times connect k this1 in
      (r :: rs, this2)
  end.

End Client.

(** ** More journals *)

Module Cases.

Definition n1 : string := "b00000000000000000000001".

(** A stored note of another user on the plant P1 of the journal. *)
Definition Foreign : Note.t :=
  Note.mk (Some (ObjectID "b00000000000000000000009"))
    (Some (Str "c00000000000000000000002"))
    [Str Scenario.p1] [("note", "borrowed")].

(** The journal with that note added. *)
Definition shared : world :=
  mk_world
    (mk_store [] (plants (db Scenario.journal))
       (notes (db Scenario.journal) ++ [Foreign]) 4)
    [] [].

(** A journal whose plant is stored under the caller's strings. *)
Definition stringly : world :=
  mk_world
    (mk_store []
       [Plant.mk (Some (Str Scenario.p1)) (Some (Str Scenario.u1))
          [("title", "Fern")] None]
       (notes (db Scenario.journal))
       3)
    [] [].

(** A store that fails the first call it gets, and one that fails the
    second. *)
Definition down (w : world) : world :=
  mk_world (db w) [Some (StoreError "connection lost")] (trace w).
Definition flaky (w : world) : world :=
  mk_world (db w) [None; Some (StoreError "connection lost")] (trace w).

(** A driver that refuses the first connection and grants the second. *)
Definition second_try (k : nat) : error + Client.connection :=
  match k with
  | 0 => inl (StoreError "ECONNREFUSED")
  | _ => inr 7
  end.

End Cases.

(** Tactics for concrete worlds: no failure planned, notes keyed. *)
Ltac show_calm := vm_compute; repeat constructor.

Ltac show_keyed :=
  split;
  [ vm_compute; repeat (constructor; [simpl; intuition discriminate|]); constructor
  | vm_compute; repeat (constructor; [discriminate|]); constructor ].

(** * Properties *)

Lemma ident_eqb_eq (a b : ident) : ident_eqb a b = true <-> a = b.
Proof.
  destruct a as [x|x|], b as [y|y|]; simpl; split; intro E;
    try discriminate; try reflexivity;
    try (apply String.eqb_eq in E; now subst);
    injection E as ->; apply String.eqb_refl.
Qed.

Lemma field_is_eq (f v : jsval) :
  field_is f v = true <-> exists i, f = Some i /\ v = Some i.
Proof.
  destruct f as [a|], v as [b|]; simpl; split; intro E;
    try discriminate; try (destruct E as (i & E1 & E2); discriminate).
  - apply ident_eqb_eq in E. subst. now exists b.
  - destruct E as (i & E1 & E2). injection E1 as ->. injection E2 as ->.
    now apply ident_eqb_eq.
Qed.

Lemma issue_calm (c : call) (w : world) :
  calm w ->
  fst (issue c w) = None /\ calm (snd (issue c w)).
Proof.
  unfold calm, issue. destruct (plan w) as [|f rest]; simpl; intro C.
  - split; [reflexivity | constructor].
  - inversion C; subst. split; [reflexivity | assumption].
Qed.

Lemma issue_db (c : call) (w : world) : db (snd (issue c w)) = db w.
Proof. reflexivity. Qed.

Lemma issue_trace (c : call) (w : world) :
  trace (snd (issue c w)) = trace w ++ [c].
Proof. reflexivity. Qed.

Section ReadFacts.

Variable empty_is_absent : bool.
Context {D : Type} `{Document D}.

Lemma read_calm (q : query) (w : world) :
  calm w ->
  read empty_is_absent D q w
  = (inr (found empty_is_absent q (db w)), snd (issue (call_read collection q) w)).
Proof.
  intro C. destruct (issue_calm (call_read collection q) C) as [E _].
  unfold read, found, selected. unfold issue in *. simpl in *. rewrite E.
  destruct (filter (matches q) (docs (db w))); reflexivity.
Qed.

Lemma read_db (q : query) (w : world) :
  db (snd (read empty_is_absent D q w)) = db w.
Proof.
  unfold read, issue. simpl.
  destruct (hd None (plan w)); simpl; [reflexivity|].
  destruct (filter (matches q) (docs (db w))); reflexivity.
Qed.

Lemma or_empty_found (q : query) (s : store) :
  or_empty (found empty_is_absent q s) = selected q s.
Proof.
  unfold found. destruct (selected q s); [destruct empty_is_absent|]; reflexivity.
Qed.

End ReadFacts.

Lemma filter_none_in {A} (f : A -> bool) (l : list A) :
  (forall a, In a l -> f a = false) -> filter f l = [].
Proof.
  intro T. induction l as [|a l IH]; simpl; [reflexivity|].
  rewrite T by now left. apply IH. intros b Ib. apply T. now right.
Qed.

Lemma matches_one {D} `{Document D} (c : cond) (d : D) :
  matches [c] d = holds c d.
Proof. unfold matches. simpl. apply andb_true_r. Qed.

Lemma idToString_external {D} `{Document D} (obj : D) :
  (forall d v, get_id (set_id d v) = v) ->
  forall i, get_id (idToString obj) = Some i -> is_external i = true.
Proof.
  intros GS i. unfold idToString.
  destruct (get_id obj) as [[s|h|]|] eqn:E; simpl.
  - destruct s; simpl; rewrite ?GS, ?E; intro X; injection X as <-; reflexivity.
  - rewrite GS. intro X; injection X as <-; reflexivity.
  - rewrite GS. intro X; injection X as <-; reflexivity.
  - rewrite E. discriminate.
Qed.

Section FacadeFacts.

Variable empty_is_absent : bool.

(** C8: a plant document without [userId] makes [createPlant] call back
    with the validation message, and the world, store and call log
    included, is left as it was: no helper is called, nothing is
    written. *)
Theorem createPlant_requires_userId (plant : Plant.t) (w : world) :
  Plant.userId plant = None ->
  createPlant plant w =
    (cb (Some (Message
           "userId must be specified as part of plant when creating a plant"))
        None, w).
Proof.
  intro E. unfold createPlant.
  destruct (truthy (Plant._id plant)); simpl; rewrite E; reflexivity.
Qed.

(** C10: [deleteAllPlantsByUserId] leaves the user and note collections
    untouched, whatever the store answers, and a call that goes through
    removes exactly the plants whose [userId] is the one given: notes that
    reference a removed plant are neither deleted nor rewritten. *)
Theorem deleteAllPlantsByUserId_frame (userId : ident) (w : world) :
  let w' := snd (deleteAllPlantsByUserId userId w) in
  users (db w') = users (db w) /\
  notes (db w') = notes (db w) /\
  plants (db w') =
    match hd None (plan w) with
    | None =>
        filter (fun p => negb (field_is (Plant.userId p) (Some userId)))
          (plants (db w))
    | Some _ => plants (db w)
    end.
Proof.
  unfold deleteAllPlantsByUserId, remove, issue. simpl.
  destruct (hd None (plan w)); simpl; repeat split.
  apply filter_ext. intro p. unfold matches. simpl. now rewrite andb_true_r.
Qed.

(** [getPlantsByUserId] in terms of the query it issues: unless exactly
    one stored user matches the value built from [userId], the callback
    gets neither an error nor a list; with exactly one it gets the plants
    matching that value, each passed through [convertIdToString].  The
    store is only read. *)
Lemma getPlantsByUserId_by_query (userId : string) (w : world) :
  calm w ->
  let built := newObjectID (Str userId) in
  let owners := selected (D:=User.t) [by_id (Some built)] (db w) in
  let owned := selected (D:=Plant.t) [by_userId (Some built)] (db w) in
  let r := getPlantsByUserId empty_is_absent userId w in
  fst r = (if List.length owners =? 1
           then cb None (Some (map idToString owned))
           else cb None None) /\
  db (snd r) = db w.
Proof.
  intros C built owners owned r. subst r owners owned built.
  unfold getPlantsByUserId.
  rewrite (read_calm empty_is_absent (D:=User.t) _ C).
  assert (G : match found empty_is_absent (D:=User.t)
                      [by_id (Some (newObjectID (Str userId)))] (db w) with
              | Some u => List.length u =? 1
              | None => false
              end
              = (List.length (selected (D:=User.t)
                                [by_id (Some (newObjectID (Str userId)))] (db w)) =? 1)).
  { unfold found.
    destruct (selected (D:=User.t) [by_id (Some (newObjectID (Str userId)))] (db w))
      as [|u [|u' l]]; [destruct empty_is_absent|..]; reflexivity. }
  rewrite G. clear G.
  destruct (issue_calm (call_read (collection (D:=User.t))
                          [by_id (Some (newObjectID (Str userId)))]) C) as [_ C1].
  destruct (List.length _ =? 1).
  - rewrite (read_calm empty_is_absent (D:=Plant.t) _ C1).
    rewrite or_empty_found. repeat split.
  - repeat split.
Qed.

(** On a store in which no user has an [_id] other than a string or a
    native identifier, [getPlantsByUserId] finds no user, whatever
    [userId]: the callback gets neither an error nor a list. *)
Lemma getPlantsByUserId_finds_no_user (userId : string) (w : world) :
  calm w ->
  (forall u, In u (users (db w)) -> User._id u <> Some Other) ->
  fst (getPlantsByUserId empty_is_absent userId w) = cb None None.
Proof.
  intros C N.
  destruct (getPlantsByUserId_by_query userId C) as [R _]. rewrite R.
  unfold selected. rewrite filter_none_in; [reflexivity|].
  intros u Iu. unfold matches. cbn [forallb holds user_document newObjectID].
  specialize (N u Iu). destruct (User._id u) as [[s|h|]|]; try reflexivity.
  now elim N.
Qed.

End FacadeFacts.

(** ** Find-or-create of the user *)

Lemma createOne_calm {D} `{Document D} (d : D) (w : world) :
  calm w ->
  createOne D d w =
    (inr (set_id (as_stored (db w) d)
            (option_map toString (get_id (as_stored (db w) d)))),
     with_db (snd (issue (call_createOne collection (idents d)) w))
       (bump (set_docs (db w) (docs (db w) ++ [as_stored (db w) d])))).
Proof.
  intro C. destruct (issue_calm (call_createOne collection (idents d)) C) as [E _].
  unfold createOne. unfold issue in *. simpl in *. now rewrite E.
Qed.

Lemma user_normalized (u : User.t) :
  idToString (set_id u (option_map toString (get_id u)))
  = set_id u (option_map toString (get_id u)).
Proof.
  destruct u as [[[s|h|]|] fb pr]; unfold idToString; simpl;
    try reflexivity.
  - destruct s; reflexivity.
  - destruct h; reflexivity.
Qed.

Lemma user_idToString (u : User.t) :
  idToString u = set_id u (option_map toString (get_id u)).
Proof.
  destruct u as [[[s|h|]|] fb pr]; unfold idToString; simpl;
    try reflexivity.
  destruct s; reflexivity.
Qed.

Lemma as_stored_facebook_id (s : store) (u : User.t) :
  User.facebook_id (as_stored s u) = User.facebook_id u.
Proof. unfold as_stored. simpl. destruct (User._id u); reflexivity. Qed.

Section FindOrCreate.

Variable empty_is_absent : bool.
Variable userDetails : User.t.
Variable w : world.

Let query := [by_facebook_id (User.facebook_id userDetails)].
Let w1 := snd (issue (call_read "user" query) w).
Let stored := as_stored (db w) userDetails.

Hypothesis quiet : calm w.
Hypothesis given : truthy_string (User.facebook_id userDetails) = true.

Lemma findOrCreate_found (u : User.t) (rest : list User.t) :
  selected query (db w) = u :: rest ->
  findOrCreateFacebookUser empty_is_absent userDetails w
  = (cb None (Some (idToString u)), w1).
Proof.
  intro S. unfold findOrCreateFacebookUser. rewrite given. simpl negb. cbv iota.
  rewrite (read_calm empty_is_absent (D:=User.t) _ quiet).
  unfold found. fold query. rewrite S. reflexivity.
Qed.

Lemma findOrCreate_created :
  empty_is_absent = true ->
  selected (D:=User.t) query (db w) = [] ->
  findOrCreateFacebookUser empty_is_absent userDetails w
  = (cb None (Some (set_id stored (option_map toString (get_id stored)))),
     with_db (snd (issue (call_createOne "user" (idents userDetails)) w1))
       (bump (set_docs (db w) (users (db w) ++ [stored])))).
Proof.
  intros F S. unfold findOrCreateFacebookUser. rewrite given. simpl negb. cbv iota.
  rewrite (read_calm empty_is_absent (D:=User.t) _ quiet).
  unfold found. fold query. rewrite S, F.
  destruct (issue_calm (call_read (collection (D:=User.t)) query) quiet) as [_ C1].
  rewrite (createOne_calm userDetails C1).
  unfold convertIdToString, option_map at 1.
  rewrite user_normalized. reflexivity.
Qed.

End FindOrCreate.

Section FindOrCreateClaims.

Variable empty_is_absent : bool.

(** C3: [findOrCreateFacebookUser] on a profile.  Without [facebook.id]
    the callback gets the error and nothing is read or written.  With
    it, and the store answering: when a stored user carries that
    identifier, the first such user is handed back with its [_id] as a
    string and the store is left as it is; when none does (the read
    handing over no value), a user is inserted from the whole profile and
    handed back with its [_id] as a string. *)
Theorem findOrCreateFacebookUser_finds_or_creates
    (userDetails : User.t) (w : world) :
  let query := [by_facebook_id (User.facebook_id userDetails)] in
  let r := findOrCreateFacebookUser empty_is_absent userDetails w in
  (User.facebook_id userDetails = None ->
     r = (cb (Some (Error "No facebook.id:")) None, w)) /\
  (calm w -> truthy_string (User.facebook_id userDetails) = true ->
     forall u rest, selected query (db w) = u :: rest ->
       fst r = cb None (Some (idToString u)) /\
       db (snd r) = db w /\
       (forall i, User._id (idToString u) = Some i -> is_external i = true)) /\
  (calm w -> truthy_string (User.facebook_id userDetails) = true ->
     empty_is_absent = true ->
     selected (D:=User.t) query (db w) = [] ->
       let stored := as_stored (db w) userDetails in
       let created := set_id stored (option_map toString (get_id stored)) in
       fst r = cb None (Some created) /\
       users (db (snd r)) = users (db w) ++ [stored] /\
       plants (db (snd r)) = plants (db w) /\
       notes (db (snd r)) = notes (db w) /\
       User.facebook_id created = User.facebook_id userDetails /\
       User.profile created = User.profile userDetails /\
       (forall i, User._id created = Some i -> is_external i = true)).
Proof.
  cbv zeta. split; [|split].
  - intro E. unfold findOrCreateFacebookUser. now rewrite E.
  - intros C T u rest S.
    rewrite (findOrCreate_found empty_is_absent userDetails C T S).
    repeat split.
    intros i Hi.
    exact (idToString_external (D:=User.t) u (fun _ _ => eq_refl) Hi).
  - intros C T F S.
    rewrite (findOrCreate_created userDetails C T F S).
    repeat split.
    + simpl. unfold as_stored. simpl. destruct (User._id userDetails); reflexivity.
    + simpl. unfold as_stored. simpl. destruct (User._id userDetails); reflexivity.
    + intros i. simpl.
      destruct (User._id (as_stored (db w) userDetails)) as [j|]; simpl;
        [intro X; injection X as <-; reflexivity | discriminate].
Qed.

(** C7: two calls of [findOrCreateFacebookUser] in a row on the same
    profile (its [facebook.id] given, the store answering, the read
    handing over no value when nothing matches): both callbacks get the
    same user, and the second call leaves the store as the first one left
    it, so no second user is created. *)
Theorem findOrCreateFacebookUser_idempotent
    (userDetails : User.t) (w : world) :
  calm w ->
  empty_is_absent = true ->
  truthy_string (User.facebook_id userDetails) = true ->
  let first := findOrCreateFacebookUser empty_is_absent userDetails w in
  let second := findOrCreateFacebookUser empty_is_absent userDetails (snd first) in
  (exists u, fst first = cb None (Some u)) /\
  fst second = fst first /\
  db (snd second) = db (snd first).
Proof.
  intros C F T. cbv zeta.
  set (query := [by_facebook_id (User.facebook_id userDetails)]).
  destruct (selected (D:=User.t) query (db w)) as [|u rest] eqn:S.
  - rewrite (findOrCreate_created userDetails C T F S).
    set (stored := as_stored (db w) userDetails).
    set (w2 := with_db _ _).
    assert (C2 : calm w2).
    { unfold w2, with_db, calm. simpl.
      unfold calm in C. destruct (plan w) as [|f l]; simpl; [constructor|].
      inversion C; subst. destruct l; simpl; [constructor|].
      now inversion H2. }
    assert (S2 : selected (D:=User.t) query (db w2) = [stored]).
    { unfold w2, with_db, selected. simpl. fold (selected (D:=User.t) query (db w)).
      unfold selected in S. simpl in S. rewrite filter_app, S. simpl.
      unfold stored. rewrite as_stored_facebook_id.
      destruct (User.facebook_id userDetails) as [id|]; [|discriminate].
      now rewrite String.eqb_refl. }
    cbn [snd]. rewrite (findOrCreate_found empty_is_absent userDetails C2 T S2).
    cbn [fst]. split; [eexists; reflexivity|]. split; [|reflexivity].
    now rewrite user_idToString.
  - rewrite (findOrCreate_found empty_is_absent userDetails C T S).
    cbn [snd].
    destruct (issue_calm (call_read "user" query) C) as [_ C1].
    assert (S1 : selected (D:=User.t) query (db (snd (issue (call_read "user" query) w)))
                 = u :: rest) by exact S.
    subst query.
    rewrite (findOrCreate_found empty_is_absent userDetails C1 T S1).
    split; [eexists; reflexivity|]. split; reflexivity.
Qed.

End FindOrCreateClaims.

(** ** A failing stage ends the cascade *)

Section HelperFailures.

Variable empty_is_absent : bool.
Context {D : Type} `{Document D}.

Lemma read_fails (q : query) (w w' : world) (e : error) :
  read empty_is_absent D q w = (inl e, w') ->
  w' = snd (issue (call_read collection q) w).
Proof.
  unfold read, issue. simpl. destruct (hd None (plan w)).
  - intro X. now injection X as _ <-.
  - destruct (filter (matches q) (docs (db w))); discriminate.
Qed.

Lemma update_fails (batch : list D) (w w' : world) (e : error) :
  update D batch w = (inl e, w') ->
  w' = snd (issue (call_update collection (flat_map idents batch)) w).
Proof.
  unfold update, issue. simpl. destruct (hd None (plan w)).
  - intro X. now injection X as _ <-.
  - discriminate.
Qed.

Lemma remove_fails (q : query) (w w' : world) (e : error) :
  remove D q w = (inl e, w') ->
  w' = snd (issue (call_remove collection q) w).
Proof.
  unfold remove, issue. simpl. destruct (hd None (plan w)).
  - intro X. now injection X as _ <-.
  - discriminate.
Qed.

End HelperFailures.

Section StageFailures.

Variable empty_is_absent : bool.
Variables _id userId : string.

Lemma getNotes_fails (w w' : world) (e : error) (r : option Cascade.deleteResult) :
  Cascade.getNotes empty_is_absent _id userId w = (inl (e, r), w') ->
  r = None /\ one_failed_call w w'.
Proof.
  unfold Cascade.getNotes, andThen, bare.
  destruct (read empty_is_absent Note.t _ w) as [[e0|found] w1] eqn:R;
    [|discriminate].
  intro X. injection X as <- <- <-. apply read_fails in R. subst w1.
  split; [reflexivity|]. split; [reflexivity | eexists; reflexivity].
Qed.

Lemma deleteNotes_fails (split : Cascade.splitNotes) (w w' : world)
    (e : error) (r : option Cascade.deleteResult) :
  Cascade.deleteNotes split w = (inl (e, r), w') ->
  r = Some (Cascade.pending (Cascade.multiplePlantNotes split)) /\
  one_failed_call w w'.
Proof.
  unfold Cascade.deleteNotes, passing, done.
  destruct (0 <? List.length (Cascade.singlePlantNotes split)); [|discriminate].
  destruct (remove Note.t _ w) as [[e0|n] w1] eqn:R; [|discriminate].
  intro X. injection X as <- <- <-. apply remove_fails in R. subst w1.
  split; [reflexivity|]. split; [reflexivity | eexists; reflexivity].
Qed.

Lemma updateNotes_fails (multiple : list Note.t) (w w' : world)
    (e : error) (r : option Cascade.deleteResult) :
  Cascade.updateNotes _id multiple w = (inl (e, r), w') ->
  r = None /\ one_failed_call w w'.
Proof.
  unfold Cascade.updateNotes, andThen, bare, done.
  destruct (0 <? List.length multiple); [|discriminate].
  destruct (update Note.t _ w) as [[e0|n] w1] eqn:R; [|discriminate].
  intro X. injection X as <- <- <-. apply update_fails in R. subst w1.
  split; [reflexivity|]. split; [reflexivity | eexists; reflexivity].
Qed.

Lemma deletePlant_stage_fails (w w' : world)
    (e : error) (r : option Cascade.deleteResult) :
  Cascade.deletePlant _id userId w = (inl (e, r), w') ->
  r = None /\ one_failed_call w w'.
Proof.
  unfold Cascade.deletePlant, bare.
  destruct (remove Plant.t _ w) as [[e0|n] w1] eqn:R; [|discriminate].
  intro X. injection X as <- <- <-. apply remove_fails in R. subst w1.
  split; [reflexivity|]. split; [reflexivity | eexists; reflexivity].
Qed.


(** Every error [deletePlant] calls back with comes from a stage that
    failed. *)
Lemma deletePlant_error_aborts (w w' : world) (e : error)
    (r : option Cascade.deleteResult) :
  deletePlant empty_is_absent _id userId w = (cb (Some e) r, w') ->
  exists wk, aborts empty_is_absent _id userId w e r wk w'.
Proof.
  unfold deletePlant, andThen.
  destruct (Cascade.getNotes empty_is_absent _id userId w) as [[[e1 r1]|sp] w1] eqn:G.
  { intro X. injection X as <- <- <-.
    destruct (getNotes_fails _ G) as [-> _]. exists w. now constructor. }
  destruct (Cascade.deleteNotes sp w1) as [[[e2 r2]|multiple] w2] eqn:Dn.
  { intro X. injection X as <- <- <-.
    destruct (deleteNotes_fails _ _ Dn) as [-> _]. exists w1.
    econstructor 2; eassumption. }
  destruct (Cascade.updateNotes _id multiple w2) as [[[e3 r3]|[]] w3] eqn:U.
  { intro X. injection X as <- <- <-.
    destruct (updateNotes_fails _ _ U) as [-> _]. exists w2.
    econstructor 3; eassumption. }
  destruct (Cascade.deletePlant _id userId w3) as [[[e4 r4]|n] w4] eqn:P.
  { intro X. injection X as <- <- <-.
    destruct (deletePlant_stage_fails _ P) as [-> _]. exists w3.
    econstructor 4; eassumption. }
  discriminate.
Qed.

End StageFailures.

(** ** What the cascading delete reaches *)

Lemma remove_note_plants (q : query) (w : world) :
  plants (db (snd (remove Note.t q w))) = plants (db w).
Proof. unfold remove, issue. simpl. destruct (hd None (plan w)); reflexivity. Qed.

Lemma update_note_plants (batch : list Note.t) (w : world) :
  plants (db (snd (update Note.t batch w))) = plants (db w).
Proof. unfold update, issue. simpl. destruct (hd None (plan w)); reflexivity. Qed.

Section Reach.

Variable empty_is_absent : bool.
Variables _id userId : string.

Lemma getNotes_plants (w : world) :
  plants (db (snd (Cascade.getNotes empty_is_absent _id userId w))) = plants (db w).
Proof.
  unfold Cascade.getNotes, andThen, bare, done.
  pose proof (read_db empty_is_absent (D:=Note.t)
                [by_plantIds (Some (Str _id)); by_userId (Some (Str userId))] w) as R.
  destruct (read empty_is_absent Note.t _ w) as [[e|x] w1]; simpl in *; now rewrite R.
Qed.

Lemma deleteNotes_plants (split : Cascade.splitNotes) (w : world) :
  plants (db (snd (Cascade.deleteNotes split w))) = plants (db w).
Proof.
  unfold Cascade.deleteNotes, passing, done.
  destruct (0 <? List.length (Cascade.singlePlantNotes split)); [|reflexivity].
  pose proof (remove_note_plants [by_id_in (Cascade.singlePlantNotes split)] w) as R.
  destruct (remove Note.t _ w) as [[e|x] w1]; exact R.
Qed.

Lemma updateNotes_plants (multiple : list Note.t) (w : world) :
  plants (db (snd (Cascade.updateNotes _id multiple w))) = plants (db w).
Proof.
  unfold Cascade.updateNotes, andThen, bare, done.
  destruct (0 <? List.length multiple); [|reflexivity].
  pose proof (update_note_plants (map (Cascade.without _id) multiple) w) as R.
  destruct (update Note.t _ w) as [[e|x] w1]; exact R.
Qed.

Lemma stringless_owner_unmatched (p : Plant.t) :
  stringless_owner p ->
  matches [by_id (Some (Str _id)); by_userId (Some (Str userId))] p = false.
Proof.
  intro Np. unfold matches. simpl. rewrite andb_true_r. apply andb_false_iff. right.
  destruct (field_is (Plant.userId p) (Some (Str userId))) eqn:F; [|reflexivity].
  apply field_is_eq in F. destruct F as (i & F1 & F2).
  injection F2 as <-. now elim (Np userId).
Qed.

Lemma deletePlant_stage_misses (w : world) :
  Forall stringless_owner (plants (db w)) ->
  plants (db (snd (Cascade.deletePlant _id userId w))) = plants (db w).
Proof.
  intro N. unfold Cascade.deletePlant, bare, remove, issue.
  cbn [fst snd plan db trace].
  destruct (hd None (plan w)); [reflexivity|].
  cbn [snd db with_db set_docs docs plant_document plants].
  induction (plants (db w)) as [|p l IH]; [reflexivity|].
  inversion N as [|? ? Np Nl]; subst.
  cbn [filter]. rewrite (stringless_owner_unmatched Np). cbn [negb].
  now rewrite IH.
Qed.

(** A store none of whose plants has a string for [userId] keeps every
    one of them through [deletePlant], whatever identifiers are passed. *)
Lemma deletePlant_out_of_reach (w : world) :
  Forall stringless_owner (plants (db w)) ->
  plants (db (snd (deletePlant empty_is_absent _id userId w))) = plants (db w).
Proof.
  intro N. unfold deletePlant, andThen.
  pose proof (getNotes_plants w) as G.
  destruct (Cascade.getNotes empty_is_absent _id userId w) as [[[e r0]|split] w1];
    simpl in G; [exact G|].
  pose proof (deleteNotes_plants split w1) as Dn.
  destruct (Cascade.deleteNotes split w1) as [[[e r0]|multiple] w2];
    simpl in Dn; [simpl; congruence|].
  pose proof (updateNotes_plants multiple w2) as U.
  destruct (Cascade.updateNotes _id multiple w2) as [[[e r0]|[]] w3];
    simpl in U; [simpl; congruence|].
  assert (N3 : Forall stringless_owner (plants (db w3))) by (rewrite U, Dn, G; exact N).
  pose proof (deletePlant_stage_misses w3 N3) as P.
  destruct (Cascade.deletePlant _id userId w3) as [[[e r0]|n] w4]; simpl in *;
    congruence.
Qed.

End Reach.

Lemma createPlant_stringless_owner (plant stored : Plant.t) (w w' : world) :
  createPlant plant w = (cb None (Some stored), w') ->
  exists kept, plants (db w') = plants (db w) ++ [kept] /\ stringless_owner kept.
Proof.
  unfold createPlant.
  set (plant1 := if truthy (Plant._id plant) then _ else plant).
  destruct (truthy (Plant.userId plant1)) eqn:T; simpl; [|discriminate].
  unfold createOne, issue. simpl. destruct (hd None (plan w)); simpl; [discriminate|].
  intro X. injection X as _ <-. simpl. eexists. split; [reflexivity|].
  intros s. unfold as_stored. simpl.
  destruct (Plant._id plant1); simpl;
    destruct (Plant.userId plant1); simpl; discriminate.
Qed.

Section Traces.

Variable empty_is_absent : bool.
Variables _id userId : string.

Lemma getNotes_trace (w : world) :
  trace (snd (Cascade.getNotes empty_is_absent _id userId w))
  = trace w ++ [call_read "note"
                  [by_plantIds (Some (Str _id)); by_userId (Some (Str userId))]].
Proof.
  unfold Cascade.getNotes, andThen, bare, done, read, issue. simpl.
  destruct (hd None (plan w)); [reflexivity|].
  destruct (filter _ (notes (db w))); reflexivity.
Qed.

Lemma deleteNotes_trace (split : Cascade.splitNotes) (w : world) :
  exists l, trace (snd (Cascade.deleteNotes split w)) = trace w ++ l.
Proof.
  unfold Cascade.deleteNotes, passing, done, remove, issue. simpl.
  destruct (0 <? List.length (Cascade.singlePlantNotes split)).
  - destruct (hd None (plan w)); eexists; reflexivity.
  - exists []. simpl. now rewrite app_nil_r.
Qed.

Lemma updateNotes_trace (multiple : list Note.t) (w : world) :
  exists l, trace (snd (Cascade.updateNotes _id multiple w)) = trace w ++ l.
Proof.
  unfold Cascade.updateNotes, andThen, bare, done, update, issue. simpl.
  destruct (0 <? List.length multiple).
  - destruct (hd None (plan w)); eexists; reflexivity.
  - exists []. simpl. now rewrite app_nil_r.
Qed.

Lemma deletePlant_stage_trace (w : world) :
  exists l, trace (snd (Cascade.deletePlant _id userId w)) = trace w ++ l.
Proof.
  unfold Cascade.deletePlant, bare, remove, issue. simpl.
  destruct (hd None (plan w)); eexists; reflexivity.
Qed.

End Traces.

Section CascadeClaims.

Variable empty_is_absent : bool.

Import Scenario.

(** C1: the run of [deletePlant(P1, owner)] on the seeded journal: the
    plant P1 stored with native identifiers, the note A on P1 alone and
    the note B on P1 and P2.  Note A is deleted and note B is left with
    P2 alone, but the plant is still stored and the count removed is 0:
    the plant query carries the caller's strings, which match no native
    identifier. *)
Theorem deletePlant_leaves_stored_plant :
  let r := deletePlant empty_is_absent p1 u1 journal in
  fst r = cb None (Some (Cascade.removed 0)) /\
  plants (db (snd r))
    = [Plant.mk (Some (ObjectID p1)) (Some (ObjectID u1)) [("title", "Fern")] None] /\
  notes (db (snd r))
    = [Note.mk (Some (ObjectID "b00000000000000000000002")) (Some (Str u1))
         [Str p2] [("note", "repotted")]].
Proof. destruct empty_is_absent; vm_compute; repeat split. Qed.

(** C2: the run of [deletePlant(P1, owner)] after [createNote] of a note
    passed without [_id] that lists P1 twice.  The note has two entries,
    so the partition sends it to the update branch, and it is stored
    back with no plant at all. *)
Theorem deletePlant_persists_empty_plantIds :
  let r := deletePlant empty_is_absent p1 u1 doubled in
  fst r = cb None (Some (Cascade.removed 0)) /\
  notes (db doubled)
    = [Note.mk (Some (ObjectID "0x1")) (Some (Str u1))
         [Str p1; Str p1] [("note", "pruned")]] /\
  notes (db (snd r))
    = [Note.mk (Some (ObjectID "0x1")) (Some (Str u1))
         [] [("note", "pruned")]].
Proof. destruct empty_is_absent; vm_compute; repeat split. Qed.

(** C4: whatever the store holds, the first call [deletePlant] issues is
    the note read, and the two identifiers in its query are the caller's
    strings, not native identifiers. *)
Theorem deletePlant_queries_with_strings (_id userId : string) (w : world) :
  let noteRead :=
    call_read "note" [by_plantIds (Some (Str _id)); by_userId (Some (Str userId))] in
  (exists later,
     trace (snd (deletePlant empty_is_absent _id userId w))
     = trace w ++ noteRead :: later) /\
  call_idents noteRead = [Str _id; Str userId] /\
  forallb is_native (call_idents noteRead) = false.
Proof.
  cbv zeta. split; [|split; reflexivity].
  unfold deletePlant, andThen.
  pose proof (getNotes_trace empty_is_absent _id userId w) as G.
  destruct (Cascade.getNotes empty_is_absent _id userId w) as [[[e r0]|split] w1];
    simpl in G; [exists []; exact G|].
  destruct (deleteNotes_trace split w1) as [l2 Dn].
  destruct (Cascade.deleteNotes split w1) as [[[e r0]|multiple] w2];
    simpl in Dn; [exists l2; simpl; rewrite Dn, G, <- app_assoc; reflexivity|].
  destruct (updateNotes_trace _id multiple w2) as [l3 U].
  destruct (Cascade.updateNotes _id multiple w2) as [[[e r0]|[]] w3];
    simpl in U;
    [exists (l2 ++ l3); simpl; rewrite U, Dn, G, <- !app_assoc; reflexivity|].
  destruct (deletePlant_stage_trace _id userId w3) as [l4 P].
  destruct (Cascade.deletePlant _id userId w3) as [[[e r0]|n] w4]; simpl in P;
    exists (l2 ++ l3 ++ l4); simpl; rewrite P, U, Dn, G, <- !app_assoc;
    reflexivity.
Qed.

(** The calls of [deletePlant(P1, owner)] on the journal: the strings
    reach the note read and the plant delete as they were passed. *)
Example deletePlant_journal_trace :
  trace (snd (deletePlant empty_is_absent p1 u1 journal))
  = trace journal ++
    [call_read "note" [by_plantIds (Some (Str p1)); by_userId (Some (Str u1))];
     call_remove "note" [by_id_in [Some (ObjectID "b00000000000000000000001")]];
     call_update "note" [ObjectID "b00000000000000000000002"; Str u1; Str p2];
     call_remove "plant" [by_id (Some (Str p1)); by_userId (Some (Str u1))]].
Proof. destruct empty_is_absent; vm_compute; reflexivity. Qed.

(** C6: [getPlantById] on a store in the documented form, holding the
    plant under its native identifier and one note that references it.
    The query is made of the value [new ObjectID(plantId)] builds, which
    is no native identifier, so the stored plant is not found: with the
    read handing over no value the callback gets neither an error nor a
    plant, and with an empty array [plant[0]._id] throws. *)
Theorem getPlantById_misses_stored_plant :
  plants (db shelf)
  = [Plant.mk (Some (ObjectID p1)) (Some (ObjectID u1)) [("title", "Fern")] None] /\
  selected (D:=Note.t) [by_plantIds (Some (ObjectID p1))] (db shelf)
  = [Note.mk (Some (ObjectID "b00000000000000000000001")) (Some (ObjectID u1))
       [ObjectID p1] [("note", "watered")]] /\
  fst (getPlantById empty_is_absent p1 shelf)
  = (if empty_is_absent
     then cb None None
     else throws "TypeError: Cannot read property '_id' of undefined") /\
  trace (snd (getPlantById empty_is_absent p1 shelf))
  = [call_read "plant" [by_id (Some Other)]].
Proof. destruct empty_is_absent; vm_compute; repeat split. Qed.

(** C9: [getPlantsByUserId] on a store holding exactly one user with the
    native identifier and a plant of that user.  The user query is made
    of the value [new ObjectID(userId)] builds, which is no native
    identifier, so the user is not found and the callback gets neither
    an error nor a list; the plants are never read. *)
Theorem getPlantsByUserId_misses_stored_user :
  users (db garden)
  = [User.mk (Some (ObjectID "0x0")) (Some "10150000000000001") [("name", "Ada")]] /\
  plants (db garden)
  = [Plant.mk (Some (ObjectID p1)) (Some (ObjectID "0x0")) [("title", "Fern")] None] /\
  fst (getPlantsByUserId empty_is_absent "0x0" garden) = cb None None /\
  trace (snd (getPlantsByUserId empty_is_absent "0x0" garden))
  = [call_read "user" [by_id (Some Other)]].
Proof. destruct empty_is_absent; vm_compute; repeat split. Qed.

End CascadeClaims.

Section PlantFetch.

Variable empty_is_absent : bool.

(** No note ever reaches the caller of [getPlantById]: the [notes] of
    the plant handed back holds [undefined] only. *)
Lemma getPlantById_no_note (plantId : string) (w : world) (p : Plant.t) :
  fst (getPlantById empty_is_absent plantId w) = cb None (Some p) ->
  exists n, Plant.notes p = Some (repeat None n).
Proof.
  unfold getPlantById.
  destruct (read empty_is_absent Plant.t _ w) as [[e|[[|plant0 l]|]] w1];
    simpl; try discriminate.
  destruct (read empty_is_absent Note.t _ w1) as [[e|found] w2];
    simpl; try discriminate.
  destruct (forallb _ (or_empty found)); simpl; [|discriminate].
  intro X. injection X as <-. simpl.
  exists (List.length (or_empty found)).
  f_equal. induction (or_empty found) as [|n l' IH]; simpl; [reflexivity|].
  now rewrite IH.
Qed.

(** When no plant has the identifier (the store answering, the read
    handing over no value), the callback gets neither an error nor a
    plant. *)
Lemma getPlantById_absent (plantId : string) (w : world) :
  calm w ->
  empty_is_absent = true ->
  selected (D:=Plant.t) [by_id (Some (newObjectID (Str plantId)))] (db w) = [] ->
  fst (getPlantById empty_is_absent plantId w) = cb None None.
Proof.
  intros C F S. unfold getPlantById.
  rewrite (read_calm empty_is_absent (D:=Plant.t) _ C).
  unfold found. rewrite S, F. reflexivity.
Qed.

End PlantFetch.

(** A note that lists no plant twice and more than one plant keeps a plant
    when one is taken out. *)
Lemma without_keeps_a_plant (_id : string) (note : Note.t) :
  NoDup (Note.plantIds note) ->
  List.length (Note.plantIds note) <> 1 ->
  In (Str _id) (Note.plantIds note) ->
  Note.plantIds (Cascade.without _id note) <> [].
Proof.
  unfold Cascade.without. simpl.
  destruct (Note.plantIds note) as [|a [|b l]]; simpl; intros N L I.
  - contradiction.
  - now elim L.
  - assert (K : strict_eq a (Str _id) = false \/ strict_eq b (Str _id) = false).
    { destruct (strict_eq a (Str _id)) eqn:Ea; [|now left].
      destruct (strict_eq b (Str _id)) eqn:Eb; [|now right].
      exfalso. destruct a as [x|x|], b as [y|y|]; simpl in *; try discriminate.
      apply String.eqb_eq in Ea, Eb. subst.
      inversion N as [|? ? Na _]; subst. apply Na. now left. }
    destruct K as [K|K]; rewrite K; simpl; [discriminate|].
    destruct (strict_eq a (Str _id)); simpl; discriminate.
Qed.

(** ** The notes after a cascade that goes through *)

Lemma remove_calm {D} `{Document D} (q : query) (w : world) :
  calm w ->
  remove D q w
  = (inr (List.length (selected q (db w))),
     with_db (snd (issue (call_remove collection q) w))
       (set_docs (db w) (filter (fun d => negb (matches q d)) (docs (db w))))).
Proof.
  intro C. destruct (issue_calm (call_remove collection q) C) as [E _].
  unfold remove. unfold issue in *. simpl in *. now rewrite E.
Qed.

Lemma update_calm {D} `{Document D} (batch : list D) (w : world) :
  calm w ->
  update D batch w
  = (inr (List.length (filter (fun d => existsb (same_id d) batch) (docs (db w)))),
     with_db (snd (issue (call_update collection (flat_map idents batch)) w))
       (set_docs (db w) (map (replacement batch) (docs (db w))))).
Proof.
  intro C. destruct (issue_calm (call_update collection (flat_map idents batch)) C) as [E _].
  unfold update. unfold issue in *. simpl in *. now rewrite E.
Qed.

Lemma calm_with_db (w : world) (s : store) : calm w -> calm (with_db w s).
Proof. exact (fun C => C). Qed.

Lemma partition_fold (l : list Note.t) (acc : Cascade.splitNotes) :
  fold_left Cascade.partition l acc
  = Cascade.mk
      (Cascade.singlePlantNotes acc ++ map Note._id (filter single l))
      (Cascade.multiplePlantNotes acc ++ filter (fun n => negb (single n)) l).
Proof.
  revert acc. induction l as [|n l IH]; intro acc; simpl.
  - rewrite !app_nil_r. now destruct acc.
  - rewrite IH. unfold Cascade.partition, single.
    destruct (List.length (Note.plantIds n) =? 1); simpl;
      now rewrite <- ?app_assoc.
Qed.

Lemma keyed_same (l : list Note.t) (a b : Note.t) :
  keyed l -> In a l -> In b l ->
  field_is (Note._id a) (Note._id b) = true -> a = b.
Proof.
  intros [N _] Ia Ib F. apply field_is_eq in F. destruct F as (i & Ea & Eb).
  induction l as [|x l IH]; [contradiction|].
  simpl in N. inversion N as [|? ? Nx Nl]; subst.
  destruct Ia as [<-|Ia], Ib as [<-|Ib]; auto.
  - exfalso. apply Nx. rewrite Ea, <- Eb. now apply in_map.
  - exfalso. apply Nx. rewrite Eb, <- Ea. now apply in_map.
Qed.

Lemma keyed_self (l : list Note.t) (a : Note.t) :
  keyed l -> In a l -> field_is (Note._id a) (Note._id a) = true.
Proof.
  intros [_ F] Ia. rewrite Forall_forall in F. specialize (F a Ia).
  destruct (Note._id a) as [i|]; [|contradiction].
  simpl. now apply ident_eqb_eq.
Qed.

Section CascadeNotes.

Variable empty_is_absent : bool.
Variables _id userId : string.
Variable l : list Note.t.
Hypothesis K : keyed l.

Let sel := filter (reached _id userId) l.

(** Among stored notes the delete query hits those the partition sent
    to [singlePlantNotes]. *)
Lemma hit_by_delete (d : Note.t) :
  In d l ->
  matches [by_id_in (map Note._id (filter single sel))] d
  = reached _id userId d && single d.
Proof.
  intro Id. unfold matches. cbn [forallb holds note_document]. rewrite andb_true_r.
  apply eq_true_iff_eq. rewrite existsb_exists, andb_true_iff. split.
  - intros (v & Iv & F). apply in_map_iff in Iv. destruct Iv as (n & <- & In_n).
    apply filter_In in In_n. destruct In_n as [In_n Sn].
    apply filter_In in In_n. destruct In_n as [In_n Rn].
    now rewrite (@keyed_same l d n K Id In_n F).
  - intros [R S]. exists (Note._id d). split; [|exact (@keyed_self l d K Id)].
    apply in_map. apply filter_In. split; [|exact S].
    apply filter_In. now split.
Qed.

(** Among stored notes the update replaces those the partition sent to
    [multiplePlantNotes], each by itself without the plant. *)
Lemma replaced_by_update (d : Note.t) :
  In d l ->
  replacement (map (Cascade.without _id) (filter (fun n => negb (single n)) sel)) d
  = if reached _id userId d && negb (single d) then Cascade.without _id d else d.
Proof.
  intro Id. unfold replacement.
  destruct (find _ _) as [b|] eqn:F.
  - apply find_some in F. destruct F as [Ib Sb].
    apply in_map_iff in Ib. destruct Ib as (n & <- & In_n).
    apply filter_In in In_n. destruct In_n as [In_n Sn].
    apply filter_In in In_n. destruct In_n as [In_n Rn].
    unfold same_id in Sb. simpl in Sb.
    rewrite (@keyed_same l d n K Id In_n Sb). now rewrite Rn, Sn.
  - destruct (reached _id userId d && negb (single d)) eqn:C; [|reflexivity].
    apply andb_true_iff in C. destruct C as [R S].
    exfalso.
    assert (Ib : In (Cascade.without _id d)
                   (map (Cascade.without _id) (filter (fun n => negb (single n)) sel))).
    { apply in_map. apply filter_In. split; [|exact S]. apply filter_In. now split. }
    pose proof (find_none _ _ F _ Ib) as X.
    unfold same_id in X. simpl in X. rewrite (@keyed_self l d K Id) in X. discriminate.
Qed.

End CascadeNotes.

Lemma filter_kept {A} (f : A -> bool) (l : list A) :
  (forall a, f a = true) -> filter f l = l.
Proof.
  intro T. induction l as [|a l IH]; simpl; [reflexivity|].
  now rewrite T, IH.
Qed.

Lemma filter_kept_in {A} (f : A -> bool) (l : list A) :
  (forall a, In a l -> f a = true) -> filter f l = l.
Proof.
  intro T. induction l as [|a l IH]; simpl; [reflexivity|].
  rewrite T by now left. rewrite IH; [reflexivity|].
  intros b Ib. apply T. now right.
Qed.

Lemma map_kept {A} (f : A -> A) (l : list A) :
  (forall a, f a = a) -> map f l = l.
Proof.
  intro T. induction l as [|a l IH]; simpl; [reflexivity|].
  now rewrite T, IH.
Qed.

Lemma map_kept_in {A} (f : A -> A) (l : list A) :
  (forall a, In a l -> f a = a) -> map f l = l.
Proof.
  intro T. induction l as [|a l IH]; simpl; [reflexivity|].
  rewrite T by now left. rewrite IH; [reflexivity|].
  intros b Ib. apply T. now right.
Qed.

Section CascadeRun.

Variable empty_is_absent : bool.
Variables _id userId : string.

Lemma getNotes_calm (w : world) :
  calm w ->
  exists w1,
    Cascade.getNotes empty_is_absent _id userId w
    = (inr (Cascade.mk
              (map Note._id (filter single (filter (reached _id userId) (notes (db w)))))
              (filter (fun n => negb (single n))
                 (filter (reached _id userId) (notes (db w))))), w1) /\
    calm w1 /\ db w1 = db w.
Proof.
  intro C. unfold Cascade.getNotes, andThen, bare, done.
  rewrite (read_calm empty_is_absent (D:=Note.t) _ C).
  rewrite or_empty_found, partition_fold. simpl app.
  eexists. split; [reflexivity|]. split; [|reflexivity].
  now apply issue_calm.
Qed.

Lemma deleteNotes_calm (split : Cascade.splitNotes) (w : world) :
  calm w ->
  exists w2,
    Cascade.deleteNotes split w = (inr (Cascade.multiplePlantNotes split), w2) /\
    calm w2 /\
    notes (db w2)
    = filter (fun d => negb (matches [by_id_in (Cascade.singlePlantNotes split)] d))
        (notes (db w)) /\
    plants (db w2) = plants (db w) /\ users (db w2) = users (db w).
Proof.
  intro C. unfold Cascade.deleteNotes, passing, done.
  destruct (Cascade.singlePlantNotes split) as [|v vs] eqn:E; cbn [List.length Nat.ltb Nat.leb].
  - exists w. split; [reflexivity|]. split; [exact C|]. split; [|split; reflexivity].
    symmetry. apply filter_kept. intro d. reflexivity.
  - rewrite (remove_calm (D:=Note.t) _ C).
    eexists. split; [reflexivity|]. split; [|split; [|split]; reflexivity].
    apply calm_with_db. now apply issue_calm.
Qed.

Lemma updateNotes_calm (multiple : list Note.t) (w : world) :
  calm w ->
  exists w3,
    Cascade.updateNotes _id multiple w = (inr tt, w3) /\
    calm w3 /\
    notes (db w3)
    = map (replacement (map (Cascade.without _id) multiple)) (notes (db w)) /\
    plants (db w3) = plants (db w) /\ users (db w3) = users (db w).
Proof.
  intro C. unfold Cascade.updateNotes, andThen, bare, done.
  destruct multiple as [|m ms]; cbn [List.length Nat.ltb Nat.leb].
  - exists w. split; [reflexivity|]. split; [exact C|]. split; [|split; reflexivity].
    symmetry. apply map_kept. intro d. reflexivity.
  - rewrite (update_calm (D:=Note.t) _ C).
    eexists. split; [reflexivity|]. split; [|split; [|split]; reflexivity].
    apply calm_with_db. now apply issue_calm.
Qed.

(** The cascade that goes through, on a store whose notes are keyed:
    the notes [getNotes] reached with one plant are gone, the other notes
    it reached are stored without the plant's string, every other note is
    as it was; the plants the final query matches are gone, and their
    count is handed to the callback. *)
Lemma deletePlant_cascade (w : world) :
  calm w ->
  keyed (notes (db w)) ->
  let r := deletePlant empty_is_absent _id userId w in
  let plantQuery := [by_id (Some (Str _id)); by_userId (Some (Str userId))] in
  fst r = cb None (Some (Cascade.removed
                         (List.length (selected (D:=Plant.t) plantQuery (db w))))) /\
  notes (db (snd r))
  = map (fun n => if reached _id userId n then Cascade.without _id n else n)
      (filter (fun n => negb (reached _id userId n && single n)) (notes (db w))) /\
  plants (db (snd r))
  = filter (fun p => negb (matches plantQuery p)) (plants (db w)) /\
  users (db (snd r)) = users (db w).
Proof.
  intros C K. cbv zeta. unfold deletePlant, andThen.
  destruct (getNotes_calm C) as (w1 & -> & C1 & E1).
  set (sel := filter (reached _id userId) (notes (db w))).
  destruct (deleteNotes_calm
              (Cascade.mk (map Note._id (filter single sel))
                 (filter (fun n => negb (single n)) sel)) C1)
    as (w2 & -> & C2 & N2 & P2 & U2).
  cbn [Cascade.multiplePlantNotes Cascade.singlePlantNotes] in *.
  destruct (updateNotes_calm (filter (fun n => negb (single n)) sel) C2)
    as (w3 & -> & C3 & N3 & P3 & U3).
  unfold Cascade.deletePlant, bare. rewrite (remove_calm (D:=Plant.t) _ C3).
  cbn [fst snd handed db with_db set_docs plant_document docs
       users plants notes issue].
  unfold selected. cbn [docs plant_document].
  rewrite P3, P2, U3, U2, E1, N3, N2, E1.
  split; [reflexivity|]. split; [|split; reflexivity].
  assert (Gone : filter (fun d => negb (matches
                           [by_id_in (map Note._id (filter single sel))] d))
                   (notes (db w))
                 = filter (fun n => negb (reached _id userId n && single n))
                     (notes (db w))).
  { apply filter_ext_in. intros d Id. unfold sel.
    now rewrite (hit_by_delete _id userId K d Id). }
  rewrite Gone. clear Gone.
  apply map_ext_in. intros d Id. apply filter_In in Id. destruct Id as [Id Keep].
  unfold sel. rewrite (replaced_by_update _id userId K d Id).
  destruct (reached _id userId d); [|reflexivity].
  destruct (single d); [discriminate|reflexivity].
Qed.

(** After such a cascade no note the query reached holds the plant's
    string, and none of them is left without a plant unless it listed a
    plant twice. *)
Lemma deletePlant_updated_notes (w : world) (n : Note.t) :
  calm w ->
  keyed (notes (db w)) ->
  In n (notes (db w)) ->
  reached _id userId n = true ->
  single n = false ->
  In (Cascade.without _id n)
     (notes (db (snd (deletePlant empty_is_absent _id userId w)))) /\
  ~ In (Str _id) (Note.plantIds (Cascade.without _id n)) /\
  (NoDup (Note.plantIds n) -> Note.plantIds (Cascade.without _id n) <> []).
Proof.
  intros C K I R S.
  destruct (deletePlant_cascade C K) as (_ & N & _). rewrite N. clear N.
  split; [|split].
  - apply in_map_iff. exists n. rewrite R. split; [reflexivity|].
    apply filter_In. split; [exact I|]. now rewrite R, S.
  - unfold Cascade.without. cbn [Note.plantIds]. intro X.
    apply filter_In in X. destruct X as [_ X]. simpl in X.
    now rewrite String.eqb_refl in X.
  - intro ND. apply without_keeps_a_plant; [exact ND| |].
    + unfold single in S. now apply Nat.eqb_neq.
    + unfold reached, matches in R. cbn [forallb holds note_document] in R.
      apply andb_true_iff in R. destruct R as [R _].
      apply existsb_exists in R. destruct R as (i & Ii & F).
      apply field_is_eq in F. destruct F as (j & Ej & Ek).
      injection Ek as <-. injection Ej as ->. exact Ii.
Qed.

End CascadeRun.

(** * The theorems at concrete worlds *)

Lemma createPlant_requires_userId_witness :
  let plant := Plant.mk (Some (Str Scenario.p2)) None [("title", "Ivy")] None in
  Plant.userId plant = None /\
  createPlant plant Scenario.journal
  = (cb (Some (Message
          "userId must be specified as part of plant when creating a plant"))
       None, Scenario.journal).
Proof.
  cbv zeta. split; [reflexivity|].
  apply createPlant_requires_userId. reflexivity.
Defined.

Lemma findOrCreateFacebookUser_finds_or_creates_witness :
  (* no facebook.id *)
  findOrCreateFacebookUser true (User.mk None None [("name", "Ada")]) Scenario.empty
  = (cb (Some (Error "No facebook.id:")) None, Scenario.empty) /\
  (* a first sign-in creates the user *)
  fst (findOrCreateFacebookUser true Scenario.profile Scenario.empty)
  = cb None (Some (User.mk (Some (Str "0x0")) (Some "10150000000000001")
                     [("name", "Ada")])) /\
  users (db (snd (findOrCreateFacebookUser true Scenario.profile Scenario.empty)))
  = [User.mk (Some (ObjectID "0x0")) (Some "10150000000000001") [("name", "Ada")]] /\
  (* a later sign-in finds it *)
  fst (findOrCreateFacebookUser true Scenario.profile Scenario.registered)
  = cb None (Some (User.mk (Some (Str "0x0")) (Some "10150000000000001")
                     [("name", "Ada")])) /\
  db (snd (findOrCreateFacebookUser true Scenario.profile Scenario.registered))
  = db Scenario.registered.
Proof.
  assert (C0 : calm Scenario.empty) by (vm_compute; constructor).
  assert (C1 : calm Scenario.registered) by (vm_compute; constructor).
  destruct (findOrCreateFacebookUser_finds_or_creates true
              (User.mk None None [("name", "Ada")]) Scenario.empty) as (Absent & _ & _).
  destruct (findOrCreateFacebookUser_finds_or_creates true
              Scenario.profile Scenario.empty) as (_ & _ & Created).
  destruct (findOrCreateFacebookUser_finds_or_creates true
              Scenario.profile Scenario.registered) as (_ & Found & _).
  specialize (Absent eq_refl).
  specialize (Created C0 eq_refl eq_refl eq_refl).
  specialize (Found C1 eq_refl
                (User.mk (Some (ObjectID "0x0")) (Some "10150000000000001")
                   [("name", "Ada")]) [] eq_refl).
  split; [exact Absent|].
  split; [exact (proj1 Created)|].
  split; [exact (proj1 (proj2 Created))|].
  split; [exact (proj1 Found)|].
  exact (proj1 (proj2 Found)).
Defined.

Lemma findOrCreateFacebookUser_idempotent_witness :
  let first := findOrCreateFacebookUser true Scenario.profile Scenario.empty in
  let second := findOrCreateFacebookUser true Scenario.profile (snd first) in
  calm Scenario.empty /\
  truthy_string (User.facebook_id Scenario.profile) = true /\
  fst second = fst first /\
  db (snd second) = db (snd first) /\
  List.length (users (db (snd second))) = 1.
Proof.
  cbv zeta.
  assert (C0 : calm Scenario.empty) by (vm_compute; constructor).
  split; [exact C0|]. split; [reflexivity|].
  destruct (findOrCreateFacebookUser_idempotent (empty_is_absent:=true)
              Scenario.profile C0 eq_refl eq_refl) as (_ & Same & Kept).
  split; [exact Same|]. split; [exact Kept|]. reflexivity.
Defined.


(** * Further properties of the facade *)

(** ** [convertIdToString], [createPlant], [createNote] *)

(** Converting twice is converting once, at each of the three kinds of
    record and at [undefined]. *)
Theorem convertIdToString_idempotent :
  (forall u : option User.t,
     convertIdToString (convertIdToString u) = convertIdToString u) /\
  (forall p : option Plant.t,
     convertIdToString (convertIdToString p) = convertIdToString p) /\
  (forall n : option Note.t,
     convertIdToString (convertIdToString n) = convertIdToString n).
Proof.
  repeat split; (intros [d|]; [|reflexivity]);
    destruct d as [i]; destruct i as [[s|h|]|];
    unfold convertIdToString, idToString; simpl;
    try reflexivity; try (destruct s; reflexivity); destruct h; reflexivity.
Qed.

(** [convertIdToString] rewrites [_id] and nothing else: the [userId] of
    a plant or a note and the [plantIds] of a note come back in the form
    they were stored in. *)
Theorem convertIdToString_only_id :
  (forall p : Plant.t,
     Plant.userId (idToString p) = Plant.userId p /\
     Plant.attrs (idToString p) = Plant.attrs p /\
     Plant.notes (idToString p) = Plant.notes p) /\
  (forall n : Note.t,
     Note.userId (idToString n) = Note.userId n /\
     Note.plantIds (idToString n) = Note.plantIds n /\
     Note.body (idToString n) = Note.body n).
Proof.
  split; intros [i ? ? ?]; unfold idToString; simpl;
    destruct (truthy i); repeat split.
Qed.

(** [createPlant] and [createNote] turn down every falsy [userId], the
    empty string as well as a missing one, before any helper is called:
    the world is left as it was. *)
Theorem create_rejects_falsy_userId :
  (forall (plant : Plant.t) (w : world),
     truthy (Plant.userId plant) = false ->
     createPlant plant w
     = (cb (Some (Message
              "userId must be specified as part of plant when creating a plant"))
          None, w)) /\
  (forall (note : Note.t) (w : world),
     truthy (Note.userId note) = false ->
     createNote note w
     = (cb (Some (Message
              "userId must be specified as part of note when creating a note"))
          None, w)).
Proof.
  split.
  - intros plant w F. unfold createPlant.
    destruct (truthy (Plant._id plant)); simpl; rewrite F; reflexivity.
  - intros note w F. unfold createNote.
    destruct (truthy (Note._id note)); simpl; rewrite F; reflexivity.
Qed.

(** A [createPlant] that goes through appends one plant.  Its [userId]
    is the object [new ObjectID] built, neither a string nor a native
    identifier; a truthy [_id] passed is replaced the same way, and a
    missing [_id] is given a native one by the store.  Users and notes
    are left alone. *)
Theorem createPlant_stores_no_identifier (plant : Plant.t) (u : ident) (w : world) :
  Plant.userId plant = Some u ->
  truthy (Some u) = true ->
  hd None (plan w) = None ->
  let r := createPlant plant w in
  exists i v,
    plants (db (snd r))
    = plants (db w) ++ [Plant.mk (Some i) (Some v) (Plant.attrs plant) (Plant.notes plant)] /\
    is_native v = false /\ (forall s, v <> Str s) /\
    (truthy (Plant._id plant) = true -> is_native i = false /\ forall s, i <> Str s) /\
    (Plant._id plant = None -> is_native i = true) /\
    users (db (snd r)) = users (db w) /\
    notes (db (snd r)) = notes (db w).
Proof.
  intros U T Q. cbv zeta. unfold createPlant, createOne, issue, as_stored.
  destruct plant as [i uid attrs ns]; simpl in U; subst uid.
  assert (T' : negb (truthy (Some u)) = false) by now rewrite T.
  destruct i as [[[|c s]|h|]|]; simpl; simpl in T'; rewrite T', Q; simpl.
  - exists (Str ""), Other. repeat split; try discriminate.
  - exists Other, Other. repeat split; try discriminate.
  - exists Other, Other. repeat split; try discriminate.
  - exists Other, Other. repeat split; try discriminate.
  - exists (ObjectID (HexString.of_nat (next_id (db w)))), Other.
    repeat split; try discriminate.
Qed.

(** A [createNote] that goes through appends one note whose [userId]
    and [plantIds] are stored exactly as the caller passed them, strings
    included.  A missing [_id] is given a native one by the store; a
    truthy [_id] passed is replaced by the object [new ObjectID] built,
    which is neither a string nor a native identifier.  Users and plants
    are left alone. *)
Theorem createNote_stores_as_passed (note : Note.t) (u : ident) (w : world) :
  Note.userId note = Some u ->
  truthy (Some u) = true ->
  hd None (plan w) = None ->
  let r := createNote note w in
  exists i,
    notes (db (snd r))
    = notes (db w) ++ [Note.mk (Some i) (Some u) (Note.plantIds note) (Note.body note)] /\
    (Note._id note = None -> is_native i = true) /\
    (truthy (Note._id note) = true -> is_native i = false /\ forall s, i <> Str s) /\
    users (db (snd r)) = users (db w) /\
    plants (db (snd r)) = plants (db w).
Proof.
  intros U T Q. cbv zeta. unfold createNote, createOne, issue, as_stored.
  destruct note as [i uid pids body]; simpl in U; subst uid.
  assert (T' : negb (truthy (Some u)) = false) by now rewrite T.
  destruct i as [[[|c s]|h|]|]; simpl; simpl in T'; rewrite T', Q; simpl.
  - exists (Str ""). repeat split; try discriminate.
  - exists Other. repeat split; try discriminate.
  - exists Other. repeat split; try discriminate.
  - exists Other. repeat split; try discriminate.
  - exists (ObjectID (HexString.of_nat (next_id (db w)))).
    repeat split; try discriminate.
Qed.

(** The three reads never write: whatever the store answers, it holds
    after [getPlantById], [getPlantsByUserId] and [getNoteById] what it
    held before. *)
Theorem reads_leave_the_store (empty_is_absent : bool) (w : world) :
  (forall plantId, db (snd (getPlantById empty_is_absent plantId w)) = db w) /\
  (forall userId, db (snd (getPlantsByUserId empty_is_absent userId w)) = db w) /\
  (forall _id, db (snd (getNoteById empty_is_absent _id w)) = db w).
Proof.
  split; [|split].
  - intro plantId. unfold getPlantById.
    pose proof (read_db empty_is_absent (D:=Plant.t)
                  [by_id (Some (newObjectID (Str plantId)))] w) as R1.
    destruct (read empty_is_absent Plant.t _ w) as [[e|[[|plant0 l]|]] w1];
      simpl in *; try exact R1.
    pose proof (read_db empty_is_absent (D:=Note.t)
                  [by_plantIds (Plant._id plant0)] w1) as R2.
    destruct (read empty_is_absent Note.t _ w1) as [[e|found] w2];
      simpl in *; [congruence|].
    destruct (forallb _ (or_empty found)); simpl; congruence.
  - intro userId. unfold getPlantsByUserId.
    pose proof (read_db empty_is_absent (D:=User.t)
                  [by_id (Some (newObjectID (Str userId)))] w) as R1.
    destruct (read empty_is_absent User.t _ w) as [[e|user] w1];
      simpl in *; [exact R1|].
    destruct (match user with Some u => List.length u =? 1 | None => false end);
      [|exact R1].
    pose proof (read_db empty_is_absent (D:=Plant.t)
                  [by_userId (Some (newObjectID (Str userId)))] w1) as R2.
    destruct (read empty_is_absent Plant.t _ w1) as [[e|found] w2];
      simpl in *; congruence.
  - intro i. unfold getNoteById.
    pose proof (read_db empty_is_absent (D:=Note.t) [by_id (Some i)] w) as R1.
    destruct (read empty_is_absent Note.t _ w) as [[e|found] w1]; exact R1.
Qed.

(** ** Failed calls and empty results in the reads *)

Lemma read_refused {D} `{Document D} (empty_is_absent : bool)
    (q : query) (w : world) (e : error) :
  hd None (plan w) = Some e ->
  read empty_is_absent D q w = (inl e, snd (issue (call_read collection q) w)).
Proof. intro Q. unfold read, issue. simpl. now rewrite Q. Qed.

Lemma read_granted {D} `{Document D} (empty_is_absent : bool)
    (q : query) (w : world) :
  hd None (plan w) = None ->
  read empty_is_absent D q w
  = (inr (found empty_is_absent q (db w)), snd (issue (call_read collection q) w)).
Proof.
  intro Q. unfold read, found, selected, issue. simpl. rewrite Q.
  destruct (filter (matches q) (docs (db w))); reflexivity.
Qed.

Section ReadErrors.

Variable empty_is_absent : bool.

(** [getPlantById] hands a failed plant read to the callback and does
    not go on to read notes: the plant read is the only call made, and
    the store is as it was. *)
Theorem getPlantById_errors (plantId : string) (w : world) (e : error) :
  hd None (plan w) = Some e ->
  getPlantById empty_is_absent plantId w
  = (cb (Some e) None,
     mk_world (db w) (tl (plan w))
       (trace w ++ [call_read "plant" [by_id (Some (newObjectID (Str plantId)))]])).
Proof.
  intro Q. unfold getPlantById.
  now rewrite (read_refused (D:=Plant.t) empty_is_absent _ w Q).
Qed.

(** [getPlantsByUserId] hands a failed user read to the callback and
    does not go on to read plants: the user read is the only call made,
    and the store is as it was. *)
Theorem getPlantsByUserId_errors (userId : string) (w : world) (e : error) :
  hd None (plan w) = Some e ->
  getPlantsByUserId empty_is_absent userId w
  = (cb (Some e) None,
     mk_world (db w) (tl (plan w))
       (trace w ++ [call_read "user" [by_id (Some (newObjectID (Str userId)))]])).
Proof.
  intro Q. unfold getPlantsByUserId.
  now rewrite (read_refused (D:=User.t) empty_is_absent _ w Q).
Qed.

(** [findOrCreateFacebookUser] creates nothing when its read fails: the
    error goes to the callback and the read is the only call made.  When
    the read finds nobody and the insert fails, the callback gets the
    insert's error and no user, and the store holds what it held. *)
Theorem findOrCreateFacebookUser_errors
    (userDetails : User.t) (w : world) (e : error) :
  truthy_string (User.facebook_id userDetails) = true ->
  let userRead := call_read "user" [by_facebook_id (User.facebook_id userDetails)] in
  (hd None (plan w) = Some e ->
     findOrCreateFacebookUser empty_is_absent userDetails w
     = (cb (Some e) None, snd (issue userRead w))) /\
  (forall rest,
     plan w = None :: Some e :: rest ->
     empty_is_absent = true ->
     selected (D:=User.t) [by_facebook_id (User.facebook_id userDetails)] (db w) = [] ->
     let r := findOrCreateFacebookUser empty_is_absent userDetails w in
     fst r = cb (Some e) None /\
     db (snd r) = db w /\
     trace (snd r)
     = trace w ++ [userRead; call_createOne "user" (idents userDetails)]).
Proof.
  intro T. cbv zeta. split.
  - intro Q. unfold findOrCreateFacebookUser. rewrite T. cbn [negb].
    now rewrite (read_refused (D:=User.t) empty_is_absent _ w Q).
  - intros rest Q F S. unfold findOrCreateFacebookUser. rewrite T. cbn [negb].
    rewrite (read_granted (D:=User.t)); [|now rewrite Q].
    unfold found. rewrite S, F.
    unfold createOne, issue. simpl. rewrite Q. simpl.
    repeat split. now rewrite <- app_assoc.
Qed.

(** When the read helper hands over an empty array for no match,
    [findOrCreateFacebookUser] takes the array for a result: the callback
    gets neither an error nor a user, and no user is created. *)
Theorem findOrCreateFacebookUser_empty_array (userDetails : User.t) (w : world) :
  truthy_string (User.facebook_id userDetails) = true ->
  calm w ->
  selected (D:=User.t) [by_facebook_id (User.facebook_id userDetails)] (db w) = [] ->
  findOrCreateFacebookUser false userDetails w
  = (cb None None,
     snd (issue (call_read "user" [by_facebook_id (User.facebook_id userDetails)]) w)).
Proof.
  intros T C S. unfold findOrCreateFacebookUser. rewrite T. cbn [negb].
  rewrite (read_calm false (D:=User.t) _ C). unfold found. rewrite S.
  reflexivity.
Qed.

(** [getPlantById] when no plant matches its query and the store
    answers: with the read handing over no value the callback gets
    neither an error nor a plant; with the read handing over an empty
    array, [plant[0]._id] throws. *)
Theorem getPlantById_no_plant (plantId : string) (w : world) :
  calm w ->
  selected (D:=Plant.t) [by_id (Some (newObjectID (Str plantId)))] (db w) = [] ->
  fst (getPlantById empty_is_absent plantId w)
  = if empty_is_absent
    then cb None None
    else throws "TypeError: Cannot read property '_id' of undefined".
Proof.
  intros C S. unfold getPlantById.
  rewrite (read_calm empty_is_absent (D:=Plant.t) _ C).
  unfold found. rewrite S. now destruct empty_is_absent.
Qed.

End ReadErrors.

(** ** More on the cascading delete *)

Lemma deleteNotes_calls (split : Cascade.splitNotes) (w : world) :
  trace (snd (Cascade.deleteNotes split w))
  = trace w ++ match Cascade.singlePlantNotes split with
               | [] => []
               | ids => [call_remove "note" [by_id_in ids]]
               end.
Proof.
  unfold Cascade.deleteNotes, passing, done, remove, issue.
  destruct (Cascade.singlePlantNotes split) as [|v vs]; simpl.
  - now rewrite app_nil_r.
  - destruct (hd None (plan w)); reflexivity.
Qed.

Lemma updateNotes_calls (_id : string) (multiple : list Note.t) (w : world) :
  trace (snd (Cascade.updateNotes _id multiple w))
  = trace w ++ match multiple with
               | [] => []
               | _ => [call_update "note"
                         (flat_map idents (map (Cascade.without _id) multiple))]
               end.
Proof.
  unfold Cascade.updateNotes, andThen, bare, done, update, issue.
  destruct multiple as [|m ms]; cbn [List.length Nat.ltb Nat.leb].
  - simpl. now rewrite app_nil_r.
  - cbn [fst snd plan db trace]. destruct (hd None (plan w)); reflexivity.
Qed.

Section CascadeMore.

Variable empty_is_absent : bool.
Variables _id userId : string.

Let noteRead :=
  call_read "note" [by_plantIds (Some (Str _id)); by_userId (Some (Str userId))].
Let plantQuery := [by_id (Some (Str _id)); by_userId (Some (Str userId))].

(** The calls of a cascade the store does not fail, in order: the note
    read; the note delete, only if some reached note has one plant; the
    note update, only if some reached note has another count; the plant
    delete.  The callback gets the number of plants that delete
    matched. *)
Lemma deletePlant_calm_calls (w : world) :
  calm w ->
  let sel := filter (reached _id userId) (notes (db w)) in
  let ids := map Note._id (filter single sel) in
  let multiple := filter (fun n => negb (single n)) sel in
  let r := deletePlant empty_is_absent _id userId w in
  fst r = cb None (Some (Cascade.removed
                         (List.length (selected (D:=Plant.t) plantQuery (db w))))) /\
  trace (snd r)
  = trace w
    ++ [noteRead]
    ++ match ids with
       | [] => []
       | _ => [call_remove "note" [by_id_in ids]]
       end
    ++ match multiple with
       | [] => []
       | _ => [call_update "note"
                 (flat_map idents (map (Cascade.without _id) multiple))]
       end
    ++ [call_remove "plant" plantQuery].
Proof.
  intro C. cbv zeta. unfold deletePlant, andThen.
  pose proof (getNotes_trace empty_is_absent _id userId w) as T1.
  destruct (getNotes_calm empty_is_absent _id userId C) as (w1 & E1 & C1 & D1).
  rewrite E1 in T1 |- *. cbn [snd] in T1.
  set (sel := filter (reached _id userId) (notes (db w))) in *.
  set (split := Cascade.mk _ _) in *.
  pose proof (deleteNotes_calls split w1) as T2.
  destruct (deleteNotes_calm split C1) as (w2 & E2 & C2 & _ & P2 & _).
  rewrite E2 in T2 |- *. cbn [snd] in T2.
  pose proof (updateNotes_calls _id (Cascade.multiplePlantNotes split) w2) as T3.
  destruct (updateNotes_calm _id (Cascade.multiplePlantNotes split) C2)
    as (w3 & E3 & C3 & _ & P3 & _).
  rewrite E3 in T3 |- *. cbn [snd] in T3.
  unfold Cascade.deletePlant, bare. rewrite (remove_calm (D:=Plant.t) _ C3).
  cbn [fst snd handed trace with_db issue].
  unfold selected. cbn [docs plant_document].
  rewrite P3, P2, D1. split; [reflexivity|].
  rewrite T3, T2, T1. subst split. cbn [Cascade.singlePlantNotes
                                        Cascade.multiplePlantNotes].
  rewrite <- !app_assoc.
  destruct (map Note._id (filter single sel)); reflexivity.
Qed.

(** A cascade that reaches no note issues two calls, the note read and
    the plant delete, and leaves every note as it is. *)
Theorem deletePlant_no_notes (w : world) :
  calm w ->
  filter (reached _id userId) (notes (db w)) = [] ->
  let r := deletePlant empty_is_absent _id userId w in
  trace (snd r) = trace w ++ [noteRead; call_remove "plant" plantQuery] /\
  notes (db (snd r)) = notes (db w) /\
  plants (db (snd r))
  = filter (fun p => negb (matches plantQuery p)) (plants (db w)).
Proof.
  intros C S. cbv zeta.
  destruct (deletePlant_calm_calls C) as [_ T]. rewrite T, S. clear T.
  split; [reflexivity|].
  unfold deletePlant, andThen.
  destruct (getNotes_calm empty_is_absent _id userId C) as (w1 & -> & C1 & D1).
  rewrite S. cbn [filter map].
  destruct (deleteNotes_calm (Cascade.mk [] []) C1) as (w2 & -> & C2 & N2 & P2 & _).
  cbn [Cascade.multiplePlantNotes Cascade.singlePlantNotes] in *.
  destruct (updateNotes_calm _id [] C2) as (w3 & -> & C3 & N3 & P3 & _).
  unfold Cascade.deletePlant, bare. rewrite (remove_calm (D:=Plant.t) _ C3).
  cbn [fst snd db with_db set_docs plant_document docs plants notes issue].
  rewrite N3, N2, P3, P2, D1. cbn [map].
  split; [|reflexivity].
  rewrite map_kept; [|reflexivity].
  apply filter_kept. reflexivity.
Qed.

(** A note the read does not reach, by its [plantIds] or by its
    [userId], is in the store after the cascade exactly as before. *)
Theorem deletePlant_spares_unreached (w : world) (n : Note.t) :
  calm w ->
  keyed (notes (db w)) ->
  In n (notes (db w)) ->
  reached _id userId n = false ->
  In n (notes (db (snd (deletePlant empty_is_absent _id userId w)))).
Proof.
  intros C K I R.
  destruct (deletePlant_cascade empty_is_absent _id userId C K) as (_ & N & _).
  rewrite N. apply in_map_iff. exists n. rewrite R. split; [reflexivity|].
  apply filter_In. split; [exact I|]. now rewrite R.
Qed.

(** Whatever the store answers, [deletePlant] creates nothing: users are
    as before, there are no more notes than before, and every plant left
    was there before. *)
Theorem deletePlant_never_creates (w : world) :
  let w' := snd (deletePlant empty_is_absent _id userId w) in
  users (db w') = users (db w) /\
  List.length (notes (db w')) <= List.length (notes (db w)) /\
  incl (plants (db w')) (plants (db w)).
Proof.
  cbv zeta. unfold deletePlant, andThen.
  assert (G : let w1 := snd (Cascade.getNotes empty_is_absent _id userId w) in
              db w1 = db w).
  { unfold Cascade.getNotes, andThen, bare, done. cbv zeta.
    pose proof (read_db empty_is_absent (D:=Note.t)
                  [by_plantIds (Some (Str _id)); by_userId (Some (Str userId))] w) as R.
    destruct (read empty_is_absent Note.t _ w) as [[e|x] w1]; exact R. }
  assert (Dn : forall split w1,
             let w2 := snd (Cascade.deleteNotes split w1) in
             users (db w2) = users (db w1) /\
             List.length (notes (db w2)) <= List.length (notes (db w1)) /\
             plants (db w2) = plants (db w1)).
  { intros split w1. unfold Cascade.deleteNotes, passing, done, remove, issue.
    destruct (0 <? List.length (Cascade.singlePlantNotes split)); simpl;
      [|repeat split; lia].
    destruct (hd None (plan w1)); simpl; repeat split; try lia.
    apply filter_length_le. }
  assert (U : forall multiple w2,
            let w3 := snd (Cascade.updateNotes _id multiple w2) in
            users (db w3) = users (db w2) /\
            List.length (notes (db w3)) = List.length (notes (db w2)) /\
            plants (db w3) = plants (db w2)).
  { intros multiple w2. unfold Cascade.updateNotes, andThen, bare, done, update, issue.
    destruct (0 <? List.length multiple); cbn [fst snd db plan trace];
      [|repeat split].
    destruct (hd None (plan w2)); cbn [fst snd db with_db set_docs note_document
                                        users notes plants];
      repeat split. apply length_map. }
  assert (P : forall w3,
            let w4 := snd (Cascade.deletePlant _id userId w3) in
            users (db w4) = users (db w3) /\
            notes (db w4) = notes (db w3) /\
            incl (plants (db w4)) (plants (db w3))).
  { intro w3. unfold Cascade.deletePlant, bare, remove, issue. cbn [fst snd db plan trace].
    destruct (hd None (plan w3)); cbn [fst snd db with_db set_docs plant_document
                                        users notes plants];
      repeat split; try apply incl_refl.
    apply incl_filter. }
  cbv zeta in *.
  destruct (Cascade.getNotes empty_is_absent _id userId w) as [[[e r0]|sp] w1];
    cbn [snd] in *; [rewrite G; repeat split; try lia; try apply incl_refl|].
  specialize (Dn sp w1).
  destruct (Cascade.deleteNotes sp w1) as [[[e r0]|multiple] w2];
    cbn [snd] in *; destruct Dn as (Du & Dl & Dp); rewrite G in *;
    [rewrite Du, Dp; repeat split; try lia; try apply incl_refl|].
  specialize (U multiple w2).
  destruct (Cascade.updateNotes _id multiple w2) as [[[e r0]|[]] w3];
    cbn [snd] in *; destruct U as (Uu & Ul & Up);
    [rewrite Uu, Up, Du, Dp; repeat split; try lia; try apply incl_refl|].
  specialize (P w3).
  destruct (Cascade.deletePlant _id userId w3) as [[[e r0]|x] w4];
    cbn [snd] in *; destruct P as (Pu & Pn & Pp);
    (rewrite Pu, Pn, Uu, Du; repeat split; try lia;
     now rewrite <- Dp, <- Up).
Qed.

(** A plant whose stored [userId] is not a string stays in the store
    through [deletePlant], whatever the store answers and whatever
    identifiers are passed. *)
Lemma deletePlant_keeps_stringless (w : world) (p : Plant.t) :
  stringless_owner p ->
  In p (plants (db w)) ->
  In p (plants (db (snd (deletePlant empty_is_absent _id userId w)))).
Proof.
  intros N I. unfold deletePlant, andThen.
  pose proof (getNotes_plants empty_is_absent _id userId w) as G.
  destruct (Cascade.getNotes empty_is_absent _id userId w) as [[[e r0]|split] w1];
    cbn [snd] in *; [now rewrite G|].
  pose proof (deleteNotes_plants split w1) as Dn.
  destruct (Cascade.deleteNotes split w1) as [[[e r0]|multiple] w2];
    cbn [snd] in *; [now rewrite Dn, G|].
  pose proof (updateNotes_plants _id multiple w2) as U.
  destruct (Cascade.updateNotes _id multiple w2) as [[[e r0]|[]] w3];
    cbn [snd] in *; [now rewrite U, Dn, G|].
  assert (I3 : In p (plants (db w3))) by now rewrite U, Dn, G.
  unfold Cascade.deletePlant, bare, remove, issue. cbn [fst snd db plan trace].
  destruct (hd None (plan w3)); cbn [fst snd handed db with_db set_docs
                                      plant_document docs plants]; [exact I3|].
  apply filter_In. split; [exact I3|].
  now rewrite (stringless_owner_unmatched _id userId N).
Qed.

End CascadeMore.

Section FailedNoteDelete.

Variable empty_is_absent : bool.
Variables _id userId : string.

(** When the note read goes through and the delete of the one-plant
    notes fails, the callback gets the error together with the notes
    that were to be updated (index.js:297); neither the update nor the
    plant delete is called, and the store is as it was. *)
Theorem deletePlant_failed_note_delete
    (w : world) (e : error) (rest : list (option error)) :
  plan w = None :: Some e :: rest ->
  let sel := filter (reached _id userId) (notes (db w)) in
  filter single sel <> [] ->
  deletePlant empty_is_absent _id userId w
  = (cb (Some e) (Some (Cascade.pending (filter (fun n => negb (single n)) sel))),
     mk_world (db w) rest
       (trace w
        ++ [call_read "note"
              [by_plantIds (Some (Str _id)); by_userId (Some (Str userId))];
            call_remove "note" [by_id_in (map Note._id (filter single sel))]])).
Proof.
  intros Q sel S. subst sel.
  assert (Q0 : hd None (plan w) = None) by now rewrite Q.
  change (filter (reached _id userId) (notes (db w)))
    with (selected (D:=Note.t)
            [by_plantIds (Some (Str _id)); by_userId (Some (Str userId))] (db w)) in *.
  unfold deletePlant, Cascade.getNotes, andThen, bare, done.
  rewrite (read_granted (D:=Note.t) empty_is_absent _ w Q0).
  rewrite or_empty_found, partition_fold.
  cbn [app Cascade.singlePlantNotes Cascade.multiplePlantNotes].
  unfold Cascade.deleteNotes.
  cbn [Cascade.singlePlantNotes Cascade.multiplePlantNotes].
  destruct (filter single (selected _ (db w))) as [|n l] eqn:F; [now elim S|].
  cbn [map List.length Nat.ltb Nat.leb].
  unfold passing, remove, issue.
  cbn [fst snd plan db trace note_document collection].
  rewrite Q. cbn [tl hd]. now rewrite <- app_assoc.
Qed.

End FailedNoteDelete.

(** The plant a [createPlant] has stored is still stored after any
    [deletePlant]: the plant query holds strings, the stored [userId] is
    not a string. *)
Theorem createPlant_survives_deletePlant
    (plant handed_back : Plant.t) (w w1 : world) :
  createPlant plant w = (cb None (Some handed_back), w1) ->
  exists kept,
    plants (db w1) = plants (db w) ++ [kept] /\
    forall empty_is_absent _id userId,
      In kept (plants (db (snd (deletePlant empty_is_absent _id userId w1)))).
Proof.
  intro E. destruct (createPlant_stringless_owner _ _ E) as (kept & P & N).
  exists kept. split; [exact P|].
  intros flag _id userId. apply deletePlant_keeps_stringless; [exact N|].
  rewrite P. apply in_or_app. right. now left.
Qed.

(** ** The partition and the update of a note *)

(** The partition accounts for every note it is given: the identifiers
    it collects and the notes it keeps add up to the notes read. *)
Theorem partition_accounts (l : list Note.t) :
  let split := fold_left Cascade.partition l (Cascade.mk [] []) in
  Cascade.singlePlantNotes split = map Note._id (filter single l) /\
  Cascade.multiplePlantNotes split = filter (fun n => negb (single n)) l /\
  List.length (Cascade.singlePlantNotes split)
  + List.length (Cascade.multiplePlantNotes split) = List.length l.
Proof.
  cbv zeta. rewrite partition_fold. cbn [Cascade.singlePlantNotes
                                         Cascade.multiplePlantNotes app].
  repeat split. rewrite length_map.
  induction l as [|n l IH]; [reflexivity|].
  cbn [filter]. destruct (single n); cbn [negb List.length]; lia.
Qed.

(** What the update writes back for a note: no entry equal to the
    plant's string is left, every other entry stays, and a note whose
    entries are all native is written back unchanged, since [!==] never
    holds a native identifier equal to a string. *)
Theorem without_drops_the_string (_id : string) (note : Note.t) :
  ~ In (Str _id) (Note.plantIds (Cascade.without _id note)) /\
  (forall i, In i (Note.plantIds note) -> i <> Str _id ->
             In i (Note.plantIds (Cascade.without _id note))) /\
  (forallb is_native (Note.plantIds note) = true ->
   Cascade.without _id note = note).
Proof.
  unfold Cascade.without. cbn [Note.plantIds]. split; [|split].
  - intro X. apply filter_In in X. destruct X as [_ X]. simpl in X.
    now rewrite String.eqb_refl in X.
  - intros i I N. apply filter_In. split; [exact I|].
    destruct i as [s|h|]; simpl; [|reflexivity|reflexivity].
    destruct (String.eqb s _id) eqn:E; [|reflexivity].
    apply String.eqb_eq in E. subst. now elim N.
  - intro F. destruct note as [i u pids body]. cbn [Note._id Note.userId
                                                    Note.plantIds Note.body] in *.
    f_equal. apply filter_kept_in. intros a Ia.
    rewrite forallb_forall in F. specialize (F a Ia).
    destruct a; [discriminate|reflexivity|discriminate].
Qed.

(** ** [deleteNote], [deleteAllPlantsByUserId] *)

(** [deleteNote] leaves users and plants alone whatever the store
    answers, and a call that goes through removes exactly the notes that
    have both the [_id] and the [userId] given: the note of another user
    stays. *)
Theorem deleteNote_frame (_id userId : ident) (w : world) :
  let w' := snd (deleteNote _id userId w) in
  users (db w') = users (db w) /\
  plants (db w') = plants (db w) /\
  notes (db w') =
    match hd None (plan w) with
    | None =>
        filter (fun n => negb (field_is (Note._id n) (Some _id)
                               && field_is (Note.userId n) (Some userId)))
          (notes (db w))
    | Some _ => notes (db w)
    end.
Proof.
  unfold deleteNote, remove, issue. simpl.
  destruct (hd None (plan w)); simpl; repeat split.
  apply filter_ext. intro n. unfold matches. simpl. now rewrite andb_true_r.
Qed.

(** [deleteAllPlantsByUserId] on a store that answers reports how many
    plants it removed; done again at once, it removes nothing more and
    reports 0. *)
Theorem deleteAllPlantsByUserId_twice (userId : ident) (w : world) :
  calm w ->
  let first := deleteAllPlantsByUserId userId w in
  let second := deleteAllPlantsByUserId userId (snd first) in
  fst first
  = cb None (Some (List.length (selected (D:=Plant.t) [by_userId (Some userId)] (db w)))) /\
  fst second = cb None (Some 0) /\
  db (snd second) = db (snd first).
Proof.
  intro C. cbv zeta. unfold deleteAllPlantsByUserId.
  rewrite (remove_calm (D:=Plant.t) _ C). cbn [fst snd handed].
  match goal with
  | |- context [remove Plant.t _ ?w1] =>
      assert (C1 : calm w1) by (apply calm_with_db; now apply issue_calm)
  end.
  rewrite (remove_calm (D:=Plant.t) _ C1). cbn [fst snd handed].
  set (q := [by_userId (Some userId)]).
  assert (N : filter (matches q)
                (filter (fun d : Plant.t => negb (matches q d)) (plants (db w))) = []).
  { induction (plants (db w)) as [|p l IH]; [reflexivity|].
    cbn [filter]. destruct (matches q p) eqn:M; cbn [negb]; [exact IH|].
    cbn [filter]. now rewrite M. }
  split; [reflexivity|]. split.
  - unfold selected. cbn [db with_db set_docs docs plant_document plants].
    now rewrite N.
  - cbn [db with_db set_docs docs plant_document plants users notes next_id issue snd].
    f_equal. clear N.
    induction (plants (db w)) as [|p l IH]; [reflexivity|].
    cbn [filter]. destruct (matches q p) eqn:M; cbn [negb]; [exact IH|].
    cbn [filter]. rewrite M. cbn [negb]. now rewrite IH.
Qed.

(** ** The connection *)

(** Once [GetDb] has handed a connection over, every later call hands
    the same one over without connecting again, whatever the driver
    would answer by then. *)
Theorem GetDb_reuses (connect connect' : nat -> error + Client.connection)
    (this this' : Client.t) (c : Client.connection) (n : nat) :
  Client.GetDb connect this = (inr c, this') ->
  Client.GetDb_times connect' n this' = (repeat (inr c) n, this').
Proof.
  intro G.
  assert (M : Client.db this' = Some c).
  { unfold Client.GetDb in G. destruct (Client.db this) as [c0|] eqn:E.
    - injection G as <- <-. exact E.
    - destruct (connect (Client.connects this)); [discriminate|].
      now injection G as <- <-. }
  induction n as [|n IH]; [reflexivity|].
  cbn [Client.GetDb_times repeat]. unfold Client.GetDb at 1. rewrite M.
  now rewrite IH.
Qed.

(** A connection the driver refused is not remembered: the next call of
    [GetDb] connects again, and gets what the driver answers then. *)
Theorem GetDb_retries (connect : nat -> error + Client.connection)
    (this : Client.t) (e : error) :
  Client.db this = None ->
  connect (Client.connects this) = inl e ->
  let r := Client.GetDb_times connect 2 this in
  fst r = [inl e; connect (S (Client.connects this))] /\
  Client.connects (snd r) = 2 + Client.connects this /\
  Client.db (snd r)
  = match connect (S (Client.connects this)) with
    | inl _ => None
    | inr c => Some c
    end.
Proof.
  intros M E. cbv zeta. cbn [Client.GetDb_times]. unfold Client.GetDb.
  rewrite M, E. cbn [Client.db Client.connects].
  destruct (connect (S (Client.connects this))); repeat split.
Qed.

(** ** Insert or update, then look up *)

Lemma createNote_calm (note : Note.t) (w : world) :
  calm w -> calm (snd (createNote note w)).
Proof.
  intro C. unfold createNote.
  match goal with |- context [if negb ?b then _ else _] => destruct b end;
    cbn [negb]; [|exact C].
  pose proof (issue_calm (call_createOne "" []) C) as [_ C1].
  unfold createOne, issue in *. cbn [fst snd plan db trace] in *.
  destruct (hd None (plan w)); exact C1.
Qed.

Section RoundTrips.

Variable empty_is_absent : bool.

(** [getPlantById] finds no plant the store holds under a native
    identifier or under a string: the value its query is made of is
    neither.  On a store that answers, the callback gets neither an
    error nor a plant when the read hands over no value, and
    [plant[0]._id] throws when it hands over an empty array. *)
Theorem getPlantById_finds_no_stored_plant (plantId : string) (w : world) :
  calm w ->
  (forall p, In p (plants (db w)) -> Plant._id p <> Some Other) ->
  fst (getPlantById empty_is_absent plantId w)
  = if empty_is_absent
    then cb None None
    else throws "TypeError: Cannot read property '_id' of undefined".
Proof.
  intros C N. unfold getPlantById.
  rewrite (read_calm empty_is_absent (D:=Plant.t) _ C).
  unfold found, selected. rewrite filter_none_in; [now destruct empty_is_absent|].
  intros p Ip. unfold matches. cbn [forallb holds plant_document newObjectID].
  specialize (N p Ip). destruct (Plant._id p) as [[s|h|]|]; try reflexivity.
  now elim N.
Qed.

(** A note created with an [_id] is not found by [getNoteById] under any
    string or native identifier that no note had before, the one it was
    created with included: what is stored as its [_id] is the value
    [new ObjectID] built, and [getNoteById] queries with its argument as
    passed. *)
Theorem createNote_then_getNoteById_misses
    (note : Note.t) (i u j : ident) (w : world) :
  Note._id note = Some i ->
  truthy (Some i) = true ->
  Note.userId note = Some u ->
  truthy (Some u) = true ->
  calm w ->
  j <> Other ->
  (forall n, In n (notes (db w)) -> field_is (Note._id n) (Some j) = false) ->
  let w1 := snd (createNote note w) in
  notes (db w1)
  = notes (db w)
    ++ [Note.mk (Some (newObjectID i)) (Some u) (Note.plantIds note) (Note.body note)] /\
  fst (getNoteById empty_is_absent j w1)
  = cb None (if empty_is_absent then None else Some []).
Proof.
  intros I T U Tu C J Fresh. cbv zeta.
  pose proof (createNote_calm note C) as C1.
  assert (P : notes (db (snd (createNote note w)))
              = notes (db w)
                ++ [Note.mk (Some (newObjectID i)) (Some u)
                      (Note.plantIds note) (Note.body note)]).
  { unfold createNote. rewrite I, T. cbn [Note.userId option_map]. rewrite U, Tu.
    cbn [negb]. rewrite (createOne_calm (D:=Note.t) _ C). reflexivity. }
  split; [exact P|].
  unfold getNoteById. rewrite (read_calm empty_is_absent (D:=Note.t) _ C1).
  cbn [fst]. unfold found, selected. cbn [docs note_document]. rewrite P.
  rewrite filter_none_in; [reflexivity|].
  intros n In_n. unfold matches. cbn [forallb holds note_document].
  apply in_app_or in In_n. destruct In_n as [In_n|[<-|[]]].
  - now rewrite (Fresh n In_n).
  - cbn [Note._id newObjectID field_is]. destruct j; [reflexivity|reflexivity|].
    now elim J.
Qed.

(** [updateNote] does not insert: when no stored note has the [_id] of
    the note passed, the store is left as it is. *)
Theorem updateNote_no_upsert (note : Note.t) (w : world) :
  (forall n, In n (notes (db w)) ->
             field_is (Note._id n) (Note._id note) = false) ->
  db (snd (updateNote note w)) = db w.
Proof.
  intro Fresh. unfold updateNote, update, issue. cbn [fst snd plan db trace].
  destruct (hd None (plan w)); cbn [fst snd db with_db set_docs note_document docs];
    [reflexivity|].
  rewrite map_kept_in.
  - now destruct (db w).
  - intros n In_n. unfold replacement, same_id. cbn [find get_id note_document].
    now rewrite (Fresh n In_n).
Qed.

(** [updatePlant] replaces no plant the store holds under a native
    identifier or under a string, whatever plant is passed: the [_id] it
    looks the plant up by is the value [new ObjectID] built.  On a store
    that answers the count is 0 and the store is as it was. *)
Theorem updatePlant_replaces_nothing (plant : Plant.t) (w : world) :
  calm w ->
  (forall p, In p (plants (db w)) -> Plant._id p <> Some Other) ->
  let r := updatePlant plant w in
  fst r = cb None (Some 0) /\
  db (snd r) = db w.
Proof.
  intros C N. cbv zeta. unfold updatePlant.
  rewrite (update_calm (D:=Plant.t) _ C).
  cbn [fst snd handed db with_db set_docs docs plant_document plants].
  assert (M : forall p, In p (plants (db w)) ->
                field_is (Plant._id p)
                  (Some (newObjectID_or (Plant._id plant))) = false).
  { intros p Ip. specialize (N p Ip).
    assert (O : newObjectID_or (Plant._id plant) = Other)
      by now destruct (Plant._id plant).
    rewrite O. destruct (Plant._id p) as [[x|x|]|]; try reflexivity.
    now elim N. }
  split.
  - rewrite filter_none_in; [reflexivity|].
    intros p Ip. cbn [existsb]. unfold same_id.
    cbn [get_id plant_document Plant._id]. now rewrite (M p Ip).
  - rewrite map_kept_in.
    + now destruct (db w).
    + intros p Ip. unfold replacement, same_id.
      cbn [find get_id plant_document Plant._id]. now rewrite (M p Ip).
Qed.

End RoundTrips.

(** ** Statements of record *)

(** The calls of a cascade the store does not fail, in order: the note
    read; the note delete, only if some reached note has one plant; the
    note update, only if some reached note has another count; the plant
    delete.  The callback gets the number of plants that delete
    matched. *)
Theorem deletePlant_calls (empty_is_absent : bool) (_id userId : string) (w : world) :
  calm w ->
  let sel := filter (reached _id userId) (notes (db w)) in
  let ids := map Note._id (filter single sel) in
  let multiple := filter (fun n => negb (single n)) sel in
  let plantQuery := [by_id (Some (Str _id)); by_userId (Some (Str userId))] in
  let r := deletePlant empty_is_absent _id userId w in
  fst r = cb None (Some (Cascade.removed
                         (List.length (selected (D:=Plant.t) plantQuery (db w))))) /\
  trace (snd r)
  = trace w
    ++ [call_read "note" [by_plantIds (Some (Str _id)); by_userId (Some (Str userId))]]
    ++ match ids with
       | [] => []
       | _ => [call_remove "note" [by_id_in ids]]
       end
    ++ match multiple with
       | [] => []
       | _ => [call_update "note"
                 (flat_map idents (map (Cascade.without _id) multiple))]
       end
    ++ [call_remove "plant" plantQuery].
Proof. exact (@deletePlant_calm_calls empty_is_absent _id userId w). Qed.

(** The cascade that goes through, on a store whose notes are keyed:
    the notes the read reached with one plant are gone, the other notes
    it reached are stored without the plant's string, every other note is
    as it was, in the stored order; the plants the final query matches
    are gone, and users are untouched. *)
Theorem deletePlant_effect (empty_is_absent : bool) (_id userId : string) (w : world) :
  calm w ->
  keyed (notes (db w)) ->
  let r := deletePlant empty_is_absent _id userId w in
  let plantQuery := [by_id (Some (Str _id)); by_userId (Some (Str userId))] in
  fst r = cb None (Some (Cascade.removed
                         (List.length (selected (D:=Plant.t) plantQuery (db w))))) /\
  notes (db (snd r))
  = map (fun n => if reached _id userId n then Cascade.without _id n else n)
      (filter (fun n => negb (reached _id userId n && single n)) (notes (db w))) /\
  plants (db (snd r))
  = filter (fun p => negb (matches plantQuery p)) (plants (db w)) /\
  users (db (snd r)) = users (db w).
Proof. exact (@deletePlant_cascade empty_is_absent _id userId w). Qed.

(** A note the cascade reached with more than one entry is stored
    afterwards without the plant's string; if it listed no plant twice,
    it still lists a plant. *)
Theorem deletePlant_rewrites_reached
    (empty_is_absent : bool) (_id userId : string) (w : world) (n : Note.t) :
  calm w ->
  keyed (notes (db w)) ->
  In n (notes (db w)) ->
  reached _id userId n = true ->
  single n = false ->
  In (Cascade.without _id n)
     (notes (db (snd (deletePlant empty_is_absent _id userId w)))) /\
  ~ In (Str _id) (Note.plantIds (Cascade.without _id n)) /\
  (NoDup (Note.plantIds n) -> Note.plantIds (Cascade.without _id n) <> []).
Proof. exact (@deletePlant_updated_notes empty_is_absent _id userId w n). Qed.

(** Every error [deletePlant] calls back with is the error of a stage
    that failed, and the world left is the one that stage left. *)
Theorem deletePlant_errors_come_from_stages
    (empty_is_absent : bool) (_id userId : string)
    (w w' : world) (e : error) (r : option Cascade.deleteResult) :
  deletePlant empty_is_absent _id userId w = (cb (Some e) r, w') ->
  exists wk, aborts empty_is_absent _id userId w e r wk w'.
Proof. exact (@deletePlant_error_aborts empty_is_absent _id userId w w' e r). Qed.

(** ** The further properties at concrete worlds *)

Lemma create_rejects_falsy_userId_witness :
  fst (createPlant (Plant.mk None (Some (Str "")) [("title", "Ivy")] None)
         Scenario.journal)
  = cb (Some (Message
          "userId must be specified as part of plant when creating a plant")) None /\
  snd (createNote (Note.mk None (Some (Str "")) [Str Scenario.p1] []) Scenario.journal)
  = Scenario.journal.
Proof.
  destruct create_rejects_falsy_userId as [P N]. split.
  - rewrite (P (Plant.mk None (Some (Str "")) [("title", "Ivy")] None)
               Scenario.journal eq_refl). reflexivity.
  - rewrite (N (Note.mk None (Some (Str "")) [Str Scenario.p1] [])
               Scenario.journal eq_refl). reflexivity.
Defined.

Lemma createPlant_stores_no_identifier_witness :
  exists i v,
    plants (db (snd (createPlant Scenario.P1 Scenario.empty)))
    = [Plant.mk (Some i) (Some v) [("title", "Fern")] None] /\
    is_native v = false /\ is_native i = false.
Proof.
  destruct (@createPlant_stores_no_identifier Scenario.P1 (Str Scenario.u1)
              Scenario.empty eq_refl eq_refl eq_refl)
    as (i & v & P & Nv & _ & Ti & _).
  exists i, v. split; [exact P|]. split; [exact Nv|]. exact (proj1 (Ti eq_refl)).
Defined.

Lemma createNote_stores_as_passed_witness :
  exists i,
    notes (db (snd (createNote Scenario.Twice Scenario.planted)))
    = [Note.mk (Some i) (Some (Str Scenario.u1))
         [Str Scenario.p1; Str Scenario.p1] [("note", "pruned")]] /\
    is_native i = true.
Proof.
  destruct (@createNote_stores_as_passed Scenario.Twice (Str Scenario.u1)
              Scenario.planted eq_refl eq_refl eq_refl)
    as (i & P & Ni & _).
  exists i. split; [exact P | exact (Ni eq_refl)].
Defined.

Lemma getPlantById_errors_witness :
  fst (getPlantById true Scenario.p1 (Cases.down Scenario.shelf))
  = cb (Some (StoreError "connection lost")) None.
Proof.
  rewrite (@getPlantById_errors true Scenario.p1 (Cases.down Scenario.shelf)
             (StoreError "connection lost") eq_refl).
  reflexivity.
Defined.

Lemma getPlantsByUserId_errors_witness :
  fst (getPlantsByUserId true "0x0" (Cases.down Scenario.garden))
  = cb (Some (StoreError "connection lost")) None.
Proof.
  rewrite (@getPlantsByUserId_errors true "0x0" (Cases.down Scenario.garden)
             (StoreError "connection lost") eq_refl).
  reflexivity.
Defined.

Lemma findOrCreateFacebookUser_errors_witness :
  fst (findOrCreateFacebookUser true Scenario.profile (Cases.down Scenario.empty))
  = cb (Some (StoreError "connection lost")) None /\
  fst (findOrCreateFacebookUser true Scenario.profile (Cases.flaky Scenario.empty))
  = cb (Some (StoreError "connection lost")) None /\
  users (db (snd (findOrCreateFacebookUser true Scenario.profile
                    (Cases.flaky Scenario.empty)))) = [].
Proof.
  destruct (@findOrCreateFacebookUser_errors true Scenario.profile
              (Cases.down Scenario.empty) (StoreError "connection lost") eq_refl)
    as [Down _].
  destruct (@findOrCreateFacebookUser_errors true Scenario.profile
              (Cases.flaky Scenario.empty) (StoreError "connection lost") eq_refl)
    as [_ Flaky].
  specialize (Down eq_refl). specialize (Flaky _ eq_refl eq_refl eq_refl).
  destruct Flaky as (F1 & F2 & _).
  split; [now rewrite Down|]. split; [exact F1|]. now rewrite F2.
Defined.

Lemma findOrCreateFacebookUser_empty_array_witness :
  findOrCreateFacebookUser false Scenario.profile Scenario.empty
  = (cb None None,
     mk_world (db Scenario.empty) []
       [call_read "user" [by_facebook_id (Some "10150000000000001")]]).
Proof.
  apply (@findOrCreateFacebookUser_empty_array Scenario.profile Scenario.empty);
    [reflexivity | show_calm | reflexivity].
Defined.

Lemma getPlantById_no_plant_witness :
  fst (getPlantById true Scenario.p2 Scenario.journal) = cb None None /\
  fst (getPlantById false Scenario.p2 Scenario.journal)
  = throws "TypeError: Cannot read property '_id' of undefined".
Proof.
  assert (C : calm Scenario.journal) by show_calm.
  split.
  - exact (@getPlantById_no_plant true Scenario.p2 Scenario.journal C eq_refl).
  - exact (@getPlantById_no_plant false Scenario.p2 Scenario.journal C eq_refl).
Defined.

Lemma deletePlant_calls_witness :
  trace (snd (deletePlant true Scenario.p1 Scenario.u1 Scenario.journal))
  = trace Scenario.journal ++
    [call_read "note" [by_plantIds (Some (Str Scenario.p1));
                       by_userId (Some (Str Scenario.u1))];
     call_remove "note" [by_id_in [Some (ObjectID Cases.n1)]];
     call_update "note" [ObjectID "b00000000000000000000002";
                         Str Scenario.u1; Str Scenario.p2];
     call_remove "plant" [by_id (Some (Str Scenario.p1));
                          by_userId (Some (Str Scenario.u1))]].
Proof.
  assert (C : calm Scenario.journal) by show_calm.
  exact (proj2 (@deletePlant_calls true Scenario.p1 Scenario.u1 Scenario.journal C)).
Defined.

Lemma deletePlant_no_notes_witness :
  trace (snd (deletePlant true Scenario.p2 Scenario.u1 Scenario.shelf))
  = [call_read "note" [by_plantIds (Some (Str Scenario.p2));
                       by_userId (Some (Str Scenario.u1))];
     call_remove "plant" [by_id (Some (Str Scenario.p2));
                          by_userId (Some (Str Scenario.u1))]] /\
  notes (db (snd (deletePlant true Scenario.p2 Scenario.u1 Scenario.shelf)))
  = notes (db Scenario.shelf).
Proof.
  assert (C : calm Scenario.shelf) by show_calm.
  destruct (@deletePlant_no_notes true Scenario.p2 Scenario.u1 Scenario.shelf
              C eq_refl) as (T & N & _).
  split; [exact T | exact N].
Defined.

Lemma deletePlant_spares_unreached_witness :
  In (Note.mk (Some (ObjectID "b00000000000000000000009"))
        (Some (Str "c00000000000000000000002"))
        [Str Scenario.p1] [("note", "borrowed")])
     (notes (db (snd (deletePlant true Scenario.p1 Scenario.u1 Cases.shared)))).
Proof.
  apply deletePlant_spares_unreached;
    [show_calm | show_keyed | vm_compute; auto | reflexivity].
Defined.

Lemma createPlant_survives_deletePlant_witness :
  In (Plant.mk (Some Other) (Some Other) [("title", "Fern")] None)
     (plants (db (snd (deletePlant true Scenario.p1 Scenario.u1
                         (snd (createPlant Scenario.P1 Scenario.empty)))))).
Proof.
  destruct (@createPlant_survives_deletePlant Scenario.P1 _
              Scenario.empty (snd (createPlant Scenario.P1 Scenario.empty)) eq_refl)
    as (kept & P & Stays).
  apply app_inj_tail in P. destruct P as [_ <-].
  exact (Stays true Scenario.p1 Scenario.u1).
Defined.

Lemma deletePlant_effect_witness :
  fst (deletePlant true Scenario.p1 Scenario.u1 Cases.stringly)
  = cb None (Some (Cascade.removed 1)) /\
  plants (db (snd (deletePlant true Scenario.p1 Scenario.u1 Cases.stringly))) = [] /\
  notes (db (snd (deletePlant true Scenario.p1 Scenario.u1 Cases.stringly)))
  = [Note.mk (Some (ObjectID "b00000000000000000000002")) (Some (Str Scenario.u1))
       [Str Scenario.p2] [("note", "repotted")]].
Proof.
  assert (C : calm Cases.stringly) by show_calm.
  assert (K : keyed (notes (db Cases.stringly))) by show_keyed.
  destruct (@deletePlant_effect true Scenario.p1 Scenario.u1 Cases.stringly C K)
    as (R & N & P & _).
  split; [exact R|]. split; [exact P | exact N].
Defined.

Lemma deletePlant_rewrites_reached_witness :
  In (Note.mk (Some (ObjectID "b00000000000000000000002")) (Some (Str Scenario.u1))
        [Str Scenario.p2] [("note", "repotted")])
     (notes (db (snd (deletePlant true Scenario.p1 Scenario.u1 Scenario.journal)))).
Proof.
  refine (proj1 (@deletePlant_rewrites_reached true Scenario.p1 Scenario.u1
                   Scenario.journal
                   (Note.mk (Some (ObjectID "b00000000000000000000002"))
                      (Some (Str Scenario.u1))
                      [Str Scenario.p1; Str Scenario.p2] [("note", "repotted")])
                   _ _ _ eq_refl eq_refl));
    [show_calm | show_keyed | vm_compute; auto].
Defined.

Lemma deletePlant_errors_come_from_stages_witness :
  exists wk,
    aborts true Scenario.p1 Scenario.u1 Scenario.failing
      (StoreError "connection lost") None wk
      (snd (deletePlant true Scenario.p1 Scenario.u1 Scenario.failing)).
Proof.
  apply (@deletePlant_errors_come_from_stages true Scenario.p1 Scenario.u1
           Scenario.failing _ (StoreError "connection lost") None).
  vm_compute. reflexivity.
Defined.

Lemma without_drops_the_string_witness :
  Cascade.without Scenario.p1
    (Note.mk (Some (ObjectID Cases.n1)) (Some (ObjectID Scenario.u1))
       [ObjectID Scenario.p1; ObjectID Scenario.p2] [])
  = Note.mk (Some (ObjectID Cases.n1)) (Some (ObjectID Scenario.u1))
      [ObjectID Scenario.p1; ObjectID Scenario.p2] [].
Proof.
  apply (proj2 (proj2 (without_drops_the_string Scenario.p1 _))). reflexivity.
Defined.

Lemma deleteAllPlantsByUserId_twice_witness :
  let first := deleteAllPlantsByUserId (ObjectID Scenario.u1) Scenario.journal in
  let second := deleteAllPlantsByUserId (ObjectID Scenario.u1) (snd first) in
  fst first = cb None (Some 1) /\ fst second = cb None (Some 0) /\
  plants (db (snd second)) = [].
Proof.
  cbv zeta. assert (C : calm Scenario.journal) by show_calm.
  destruct (@deleteAllPlantsByUserId_twice (ObjectID Scenario.u1) Scenario.journal C)
    as (F & S & D).
  split; [exact F|]. split; [exact S|]. now rewrite D.
Defined.

Lemma GetDb_reuses_witness :
  Client.GetDb_times (fun _ => inl (StoreError "ECONNREFUSED")) 3
    (snd (Client.GetDb (fun _ => inr 7) Client.fresh))
  = ([inr 7; inr 7; inr 7], Client.mk (Some 7) 1).
Proof.
  exact (@GetDb_reuses (fun _ => inr 7) (fun _ => inl (StoreError "ECONNREFUSED"))
           Client.fresh (Client.mk (Some 7) 1) 7 3 eq_refl).
Defined.

Lemma GetDb_retries_witness :
  Client.GetDb_times Cases.second_try 2 Client.fresh
  = ([inl (StoreError "ECONNREFUSED"); inr 7], Client.mk (Some 7) 2).
Proof.
  destruct (@GetDb_retries Cases.second_try Client.fresh (StoreError "ECONNREFUSED")
              eq_refl eq_refl) as (A & B & D).
  destruct (Client.GetDb_times Cases.second_try 2 Client.fresh) as [answers [d k]].
  cbn [fst snd Client.connects Client.db] in *. now subst.
Defined.

Lemma getPlantById_finds_no_stored_plant_witness :
  fst (getPlantById true Scenario.p1 Scenario.shelf) = cb None None.
Proof.
  apply (@getPlantById_finds_no_stored_plant true Scenario.p1 Scenario.shelf);
    [show_calm|].
  intros p Ip. vm_compute in Ip. destruct Ip as [<-|[]]. discriminate.
Defined.

Lemma createNote_then_getNoteById_misses_witness :
  fst (getNoteById true (Str Cases.n1) (snd (createNote Scenario.A Scenario.planted)))
  = cb None None /\
  fst (getNoteById true (ObjectID Cases.n1)
         (snd (createNote Scenario.A Scenario.planted)))
  = cb None None.
Proof.
  split.
  - refine (proj2 (@createNote_then_getNoteById_misses true Scenario.A
                     (Str Cases.n1) (Str Scenario.u1) (Str Cases.n1) Scenario.planted
                     eq_refl eq_refl eq_refl eq_refl _ _ _));
      [show_calm | discriminate | intros n []].
  - refine (proj2 (@createNote_then_getNoteById_misses true Scenario.A
                     (Str Cases.n1) (Str Scenario.u1) (ObjectID Cases.n1)
                     Scenario.planted
                     eq_refl eq_refl eq_refl eq_refl _ _ _));
      [show_calm | discriminate | intros n []].
Defined.

Lemma updateNote_no_upsert_witness :
  db (snd (updateNote Scenario.A Scenario.journal)) = db Scenario.journal.
Proof.
  apply updateNote_no_upsert. intros n In_n.
  vm_compute in In_n. destruct In_n as [<-|[<-|[]]]; reflexivity.
Defined.

Lemma updatePlant_replaces_nothing_witness :
  let renamed :=
    Plant.mk (Some (Str Scenario.p1)) (Some (Str Scenario.u1)) [("title", "Boston fern")]
      None in
  fst (updatePlant renamed Scenario.planted) = cb None (Some 0) /\
  plants (db (snd (updatePlant renamed Scenario.planted))) = [Scenario.stored_P1].
Proof.
  cbv zeta.
  destruct (@updatePlant_replaces_nothing
              (Plant.mk (Some (Str Scenario.p1)) (Some (Str Scenario.u1))
                 [("title", "Boston fern")] None)
              Scenario.planted) as [R D].
  - show_calm.
  - intros p Ip. vm_compute in Ip. destruct Ip as [<-|[]]. discriminate.
  - split; [exact R|]. now rewrite D.
Defined.

Lemma deletePlant_failed_note_delete_witness :
  fst (deletePlant true Scenario.p1 Scenario.u1 (Cases.flaky Scenario.journal))
  = cb (Some (StoreError "connection lost"))
      (Some (Cascade.pending
               [Note.mk (Some (ObjectID "b00000000000000000000002"))
                  (Some (Str Scenario.u1))
                  [Str Scenario.p1; Str Scenario.p2] [("note", "repotted")]])) /\
  db (snd (deletePlant true Scenario.p1 Scenario.u1 (Cases.flaky Scenario.journal)))
  = db Scenario.journal.
Proof.
  rewrite (@deletePlant_failed_note_delete true Scenario.p1 Scenario.u1
             (Cases.flaky Scenario.journal) (StoreError "connection lost") []
             eq_refl ltac:(discriminate)).
  split; reflexivity.
Defined.
